(** * Urban heat island detection script (urban_heat_island.py)

    The script is a client of two libraries: the Earth Engine client [ee],
    whose objects are descriptions of computations that the service
    evaluates, and the mapping library [geemap].  The development has three
    layers:

    - the client objects the script builds ([Image], [ImageCollection],
      [FeatureCollection], ...), as the trees of calls that they are;
    - what the service computes for such a tree, pixel by pixel ([denote]);
      pixel values are exact rationals, and what the archives hold is left
      to a [Service] record;
    - the script's functions, in a monad [Py] that records what the process
      prints and which library calls it issues, and in which a call may
      raise a Python exception; what the outside answers is left to a
      [World] record. *)

From Stdlib Require Import ZArith QArith Lqa Lia Bool List String Ascii.
Import ListNotations.

Local Open Scope string_scope.
Local Open Scope Q_scope.
Local Open Scope list_scope.

(** ** Python exceptions and outcomes *)

(** [Exception_] stands for any instance of Python's [Exception];
    [KeyboardInterrupt] and [SystemExit] derive from [BaseException] only. *)
Inductive PyExc : Type :=
| Exception_ (msg : string)
| KeyboardInterrupt_
| SystemExit_ (code : Z).

Inductive Outcome (A : Type) : Type :=
| Ok (a : A)
| Raised (e : PyExc).
Arguments Ok {A} a.
Arguments Raised {A} e.

Definition is_Exception (e : PyExc) : bool :=
  match e with
  | Exception_ _ => true
  | _ => false
  end.

(** ** Earth Engine client objects *)

Inductive Geometry : Type :=
| Geometry_Point (coords : list Q).

(** The body of a function mapped over a feature collection, applied to
    [feature_arg]. *)
Inductive Feature : Type :=
| feature_arg
| Feature_simplify (f : Feature) (maxError : Z).

Inductive FeatureCollection : Type :=
| FeatureCollection_id (id : string)
| FC_filterBounds (c : FeatureCollection) (g : Geometry)
| FC_map (c : FeatureCollection) (body : Feature).

Inductive Filter : Type :=
| Filter_calendarRange (first last : Z) (field : string)
| Filter_lt (name : string) (value : Z).

Inductive Reducer : Type :=
| Reducer_mean.

(** The dictionary handed to [reduceRegion]. *)
Record ReduceRegionArgs : Type := mkReduceRegionArgs {
  rr_reducer : Reducer;
  rr_geometry : FeatureCollection;
  rr_scale : Q;
  rr_maxPixels : Q
}.

Inductive Image : Type :=
| image_arg
| Image_constant (value : Q)
| IC_mode (c : ImageCollection)
| IC_median (c : ImageCollection)
| Image_eq (i : Image) (value : Q)
| Image_gte (i : Image) (value : Q)
| Image_lt (i : Image) (value : Q)
| Image_And (a b : Image)
| Image_where (input test : Image) (value : Q)
| Image_updateMask (i mask : Image)
| Image_multiply (i : Image) (n : Number)
| Image_add (i : Image) (n : Number)
| Image_copyProperties (dst src : Image) (names : PropertyNames)
| Image_expression (i : Image) (expr : string) (vars : VarMap)
| Image_rename (i : Image) (name : string)
| Image_clip (i : Image) (region : FeatureCollection)
with ImageCollection : Type :=
| ImageCollection_id (id : string)
| IC_select (c : ImageCollection) (band : string)
| IC_filterDate (c : ImageCollection) (start finish : string)
| IC_filterBounds (c : ImageCollection) (region : FeatureCollection)
| IC_filter (c : ImageCollection) (f : Filter)
| IC_map (c : ImageCollection) (body : Image)
with Number : Type :=
| Number_get (i : Image) (property : string)
| Number_reduceRegion_values_get (i : Image) (args : ReduceRegionArgs) (index : Z)
with PropertyNames : Type :=
| Image_propertyNames (i : Image)
with VarMap : Type :=
| Vars_end
| Vars_image (name : string) (i : Image) (rest : VarMap)
| Vars_number (name : string) (x : Q) (rest : VarMap).

(** The keyword arguments of [ee.batch.Export.image.toDrive]. *)
Record ExportRequest : Type := mkExportRequest {
  image : Image;
  description : string;
  folder : string;
  fileNamePrefix : string;
  region : FeatureCollection;
  scale : Q;
  crs : string;
  maxPixels : Q;
  fileFormat : string
}.

(** An export task; [task_id] is [None] until the task is started. *)
Record Task : Type := mkTask {
  task_config : ExportRequest;
  task_id : option string
}.

Record VisParams : Type := mkVisParams {
  vis_min : Q;
  vis_max : Q;
  palette : list string
}.

(** ** What the process does: prints and library calls *)

(** A printed line: literal text and the values formatted into it. *)
Inductive Piece : Type :=
| Lit (s : string)
| Fstr (s : string)
| Fexc (e : PyExc)
| Flist (l : list Q)
| Fint (n : Z)
| Ffixed2 (x : Q)
| Fid (id : option string).

Inductive Event : Type :=
| Printed (line : list Piece)
| EE_Initialize
| EE_size_getInfo (c : ImageCollection)
| EE_number_getInfo (n : Number)
| EE_task_start (req : ExportRequest)
| EE_task_status (id : option string)
| Geemap_Map (center : Q * Q) (zoom : Z)
| Geemap_addLayer (i : Image) (vis : VisParams) (name : string)
| Geemap_addLayerControl
| Geemap_save (file : string).

(** The answers of the outside to the calls of the script. *)
Record World : Type := mkWorld {
  Initialize_result : Outcome unit;
  size_getInfo : ImageCollection -> Outcome Z;
  number_getInfo : Number -> Outcome Q;
  task_start : ExportRequest -> Outcome string;
  geemap_Map : Q * Q -> Z -> Outcome unit;
  geemap_addLayer : Image -> VisParams -> string -> Outcome unit;
  geemap_addLayerControl : Outcome unit;
  geemap_save : string -> Outcome unit
}.

(** ** The monad of the script *)

Definition Py (A : Type) : Type := World -> list Event * Outcome A.

Definition ret {A : Type} (a : A) : Py A := fun _ => ([], Ok a).

Definition raise {A : Type} (e : PyExc) : Py A := fun _ => ([], Raised e).

Definition bind {A B : Type} (m : Py A) (k : A -> Py B) : Py B :=
  fun w =>
    match m w with
    | (t, Ok a) => let (t', r) := k a w in (t ++ t', r)
    | (t, Raised e) => (t, Raised e)
    end.

Notation "x <- m ;; k" := (bind m (fun x => k))
  (at level 61, m at next level, right associativity).
Notation "m ;; k" := (bind m (fun _ => k))
  (at level 61, right associativity).

(** A library call: the call is issued, then the outside answers. *)
Definition call {A : Type} (e : Event) (answer : World -> Outcome A) : Py A :=
  fun w => ([e], answer w).

Definition print (line : list Piece) : Py unit :=
  fun _ => ([Printed line], Ok tt).

(** [try: body / except Exception as e: handler e]. *)
Definition try_except_Exception {A : Type} (body : Py A) (handler : PyExc -> Py A)
  : Py A :=
  fun w =>
    match body w with
    | (t, Raised (Exception_ msg)) =>
        let (t', r) := handler (Exception_ msg) w in (t ++ t', r)
    | other => other
    end.

(** The built-in [exit]. *)
Definition exit {A : Type} (code : Z) : Py A := raise (SystemExit_ code).

(** [l[i]] on a list. *)
Definition getitem (l : list Q) (i : nat) : Py Q :=
  match nth_error l i with
  | Some x => ret x
  | None => raise (Exception_ "list index out of range")
  end.

Definition LF : string := String (ascii_of_nat 10) EmptyString.

(** [s * n] on strings. *)
Fixpoint str_mul (s : string) (n : nat) : string :=
  match n with
  | O => EmptyString
  | S n' => (s ++ str_mul s n')%string
  end.

(** ** What the client checks before anything is sent *)

(** [ee.Geometry.Point(coords)]: the client takes a list of two
    coordinates and raises an [EEException] for any other. *)
Definition ee_Geometry_Point (coords : list Q) : Py Geometry :=
  if Nat.eqb (List.length coords) 2 then ret (Geometry_Point coords)
  else raise (Exception_ "The Geometry.Point constructor requires 2 coordinates.").

(** How the parameters of [reduceRegion] are handed over: all in one
    dictionary as the only positional argument, or each by its name. *)
Inductive ReduceRegionCall : Type :=
| Positional_dict (d : ReduceRegionArgs)
| By_name (args : ReduceRegionArgs).

(** The text of the client's [TypeError]; older clients raise an
    [EEException] with another text.  Both are instances of [Exception]. *)
Definition reducer_cast_error : string :=
  "Reducer can only be used as a cast to Reducer. Found <class 'dict'>.".

(** [ee.Number(image.reduceRegion(...).values().get(index))].  The first
    positional parameter of [reduceRegion] is the reducer: the client casts
    what it is given to a reducer, and a dictionary is none. *)
Definition Image_reduceRegion_values_get (i : Image) (c : ReduceRegionCall)
  (index : Z) : Py Number :=
  match c with
  | Positional_dict _ => raise (Exception_ reducer_cast_error)
  | By_name args => ret (Number_reduceRegion_values_get i args index)
  end.

(** ** The script *)

Definition initialize_earth_engine : Py unit :=
  try_except_Exception
    (call EE_Initialize Initialize_result ;;
     print [Lit "✓ Earth Engine initialized successfully"])
    (fun e =>
       print [Lit "✗ Earth Engine initialization failed"] ;;
       print [Lit "  Error: "; Fexc e] ;;
       print [Lit (LF ++ "Please authenticate with Google Cloud:")%string] ;;
       print [Lit "  Run: earthengine authenticate"] ;;
       exit 1).

Definition load_admin_boundaries : Py FeatureCollection :=
  print [Lit (LF ++ "📍 Loading FAO Admin Boundaries...")%string] ;;
  let adminRegions := FeatureCollection_id "FAO/GAUL/2015/level1" in
  ret adminRegions.

Definition get_roi (centralCoord : list Q) (adminRegions : FeatureCollection)
  : Py (FeatureCollection * Geometry) :=
  print [Lit (LF ++ "🎯 Extracting ROI for coordinates: ")%string; Flist centralCoord] ;;
  cityPoint <- ee_Geometry_Point centralCoord ;;
  let analysisBoundary :=
    FC_map (FC_filterBounds adminRegions cityPoint)
           (Feature_simplify feature_arg 1000) in
  ret (analysisBoundary, cityPoint).

Definition get_urban_mask (analysisBoundary : FeatureCollection)
  (startDate endDate : string) : Py Image :=
  print [Lit (LF ++ "🏙️  Loading Dynamic World urban classification...")%string] ;;
  let dynamicUrban :=
    Image_eq
      (IC_mode
         (IC_filter
            (IC_filterBounds
               (IC_filterDate
                  (IC_select (ImageCollection_id "GOOGLE/DYNAMICWORLD/V1") "label")
                  startDate endDate)
               analysisBoundary)
            (Filter_calendarRange 5 9 "month")))
      6 in
  print [Lit "✓ Urban mask created (Class 6 - Built Area)"] ;;
  ret dynamicUrban.

(** The function mapped over the scenes by [load_landsat_thermal]. *)
Definition apply_thermal_scaling (image : Image) : Image :=
  let scaleFactor := Number_get image "TEMPERATURE_MULT_BAND_ST_B10" in
  let offsetFactor := Number_get image "TEMPERATURE_ADD_BAND_ST_B10" in
  let brightnessTemp := Image_add (Image_multiply image scaleFactor) offsetFactor in
  Image_copyProperties brightnessTemp image (Image_propertyNames image).

Definition load_landsat_thermal (analysisBoundary : FeatureCollection)
  (startDate endDate : string) : Py ImageCollection :=
  print [Lit (LF ++ "🛰️  Loading Landsat 8 thermal data (")%string; Fstr startDate;
         Lit " to "; Fstr endDate; Lit ")..."] ;;
  let metadata :=
    IC_filter
      (IC_filterDate
         (IC_filterBounds
            (IC_select (ImageCollection_id "LANDSAT/LC08/C02/T1_L2") "ST_B10")
            analysisBoundary)
         startDate endDate)
      (Filter_lt "CLOUD_COVER" 10) in
  n <- call (EE_size_getInfo metadata) (fun w => size_getInfo w metadata) ;;
  print [Lit "✓ Found "; Fint n; Lit " Landsat 8 scenes (cloud cover < 10%)"] ;;
  let landsatThermal := IC_map metadata (apply_thermal_scaling image_arg) in
  ret landsatThermal.

Definition compute_lst (landsatThermal : ImageCollection)
  (analysisBoundary : FeatureCollection) : Py (Image * Q) :=
  print [Lit (LF ++ "🌡️  Computing median Land Surface Temperature...")%string] ;;
  let medianThermal := IC_median landsatThermal in
  meanLST <-
    Image_reduceRegion_values_get medianThermal
      (Positional_dict {| rr_reducer := Reducer_mean;
                          rr_geometry := analysisBoundary;
                          rr_scale := 100;
                          rr_maxPixels := 1e13 |})
      0 ;;
  meanLST_value <- call (EE_number_getInfo meanLST) (fun w => number_getInfo w meanLST) ;;
  print [Lit "✓ Mean LST: "; Ffixed2 meanLST_value; Lit " K (";
         Ffixed2 (meanLST_value - 273.15); Lit "°C)"] ;;
  ret (medianThermal, meanLST_value).

Definition calculate_uhi_index (medianThermal : Image) (meanLST : Q) : Py Image :=
  print [Lit (LF ++ "📊 Calculating UHI Index...")%string] ;;
  let uhiIndex :=
    Image_rename
      (Image_expression medianThermal "(TIR - MEAN) / MEAN"
         (Vars_image "TIR" medianThermal (Vars_number "MEAN" meanLST Vars_end)))
      "UHI_Index" in
  print [Lit "✓ UHI Index calculated (relative deviation from mean)"] ;;
  ret uhiIndex.

Definition classify_uhi_intensity (uhiIndex dynamicUrban : Image) : Py Image :=
  print [Lit (LF ++ "🔥 Classifying UHI intensity levels...")%string] ;;
  let uhiClasses :=
    Image_updateMask
      (Image_where
         (Image_where
            (Image_where
               (Image_where
                  (Image_where (Image_constant 0)
                     (Image_And (Image_gte uhiIndex 0) (Image_lt uhiIndex 0.005)) 1)
                  (Image_And (Image_gte uhiIndex 0.005) (Image_lt uhiIndex 0.010)) 2)
               (Image_And (Image_gte uhiIndex 0.010) (Image_lt uhiIndex 0.015)) 3)
            (Image_And (Image_gte uhiIndex 0.015) (Image_lt uhiIndex 0.020)) 4)
         (Image_gte uhiIndex 0.020) 5)
      dynamicUrban in
  print [Lit "✓ Classification levels:"] ;;
  print [Lit "  1 = Mild        (0.000 - 0.005)"] ;;
  print [Lit "  2 = Moderate    (0.005 - 0.010)"] ;;
  print [Lit "  3 = Strong      (0.010 - 0.015)"] ;;
  print [Lit "  4 = Very Strong (0.015 - 0.020)"] ;;
  print [Lit "  5 = Extreme     (≥ 0.020)"] ;;
  ret uhiClasses.

(** [output_folder] is a keyword parameter with the default ['UrbanHeat']:
    [None] stands for a call that leaves it out. *)
Definition export_to_drive (uhiClasses : Image) (analysisBoundary : FeatureCollection)
  (output_folder : option string) : Py Task :=
  let output_folder :=
    match output_folder with Some f => f | None => "UrbanHeat" end in
  print [Lit (LF ++ "💾 Exporting to Google Drive (")%string; Fstr output_folder;
         Lit "/)..."] ;;
  let task :=
    {| task_config :=
         {| image := Image_clip uhiClasses analysisBoundary;
            description := "UHI_Classes_Landsat8_Export";
            folder := output_folder;
            fileNamePrefix := "uhi_classes";
            region := analysisBoundary;
            scale := 100;
            crs := "EPSG:4326";
            maxPixels := 1e13;
            fileFormat := "GeoTIFF" |};
       task_id := None |} in
  id <- call (EE_task_start (task_config task))
             (fun w => task_start w (task_config task)) ;;
  let task := {| task_config := task_config task; task_id := Some id |} in
  print [Lit "✓ Export task started: "; Fid (task_id task)] ;;
  print [Lit "  Check your Google Drive ("; Fstr output_folder; Lit "/) for results"] ;;
  print [Lit "  Task ID: "; Fid (task_id task)] ;;
  ret task.

Definition visualize_interactive (medianThermal uhiClasses : Image)
  (analysisBoundary : FeatureCollection) (centralCoord : list Q) : Py unit :=
  print [Lit (LF ++ "🗺️  Creating interactive visualization...")%string] ;;
  try_except_Exception
    (c1 <- getitem centralCoord 1 ;;
     c0 <- getitem centralCoord 0 ;;
     call (Geemap_Map (c1, c0) 10) (fun w => geemap_Map w (c1, c0) 10) ;;
     (let layer := Image_clip medianThermal analysisBoundary in
      let vis := {| vis_min := 280; vis_max := 310;
                    palette := ["blue"; "cyan"; "green"; "yellow"; "red"] |} in
      call (Geemap_addLayer layer vis "LST (Kelvin)")
           (fun w => geemap_addLayer w layer vis "LST (Kelvin)")) ;;
     (let layer := Image_clip uhiClasses analysisBoundary in
      let vis := {| vis_min := 1; vis_max := 5;
                    palette := ["white"; "yellow"; "orange"; "red"; "darkred"] |} in
      call (Geemap_addLayer layer vis "UHI Classes")
           (fun w => geemap_addLayer w layer vis "UHI Classes")) ;;
     call Geemap_addLayerControl geemap_addLayerControl ;;
     let output_file := "uhi_map.html" in
     call (Geemap_save output_file) (fun w => geemap_save w output_file) ;;
     print [Lit "✓ Interactive map saved: "; Fstr output_file] ;;
     print [Lit "  Open this file in your browser to view the visualization"])
    (fun e =>
       print [Lit "⚠️  Could not create interactive map: "; Fexc e] ;;
       print [Lit "  (geemap may not be installed. Install with: pip install geemap)"]).

Definition main : Py unit :=
  print [Lit (str_mul "=" 60)] ;;
  print [Lit "Urban Heat Island Detection using Landsat 8"] ;;
  print [Lit "Google Earth Engine Python API"] ;;
  print [Lit (str_mul "=" 60)] ;;
  initialize_earth_engine ;;
  let centralCoord := [80.2707; 13.0827] in
  let startDate := "2023-01-01" in
  let endDate := "2024-12-31" in
  print [Lit (LF ++ "⚙️  Configuration:")%string] ;;
  print [Lit "  Location: "; Flist centralCoord] ;;
  print [Lit "  Analysis Period: "; Fstr startDate; Lit " to "; Fstr endDate] ;;
  print [Lit "  Focus Months: May - September (summer)"] ;;
  adminRegions <- load_admin_boundaries ;;
  roi <- get_roi centralCoord adminRegions ;;
  let (analysisBoundary, cityPoint) := roi in
  dynamicUrban <- get_urban_mask analysisBoundary startDate endDate ;;
  landsatThermal <- load_landsat_thermal analysisBoundary startDate endDate ;;
  lst <- compute_lst landsatThermal analysisBoundary ;;
  let (medianThermal, meanLST) := lst in
  uhiIndex <- calculate_uhi_index medianThermal meanLST ;;
  uhiClasses <- classify_uhi_intensity uhiIndex dynamicUrban ;;
  task <- export_to_drive uhiClasses analysisBoundary None ;;
  visualize_interactive medianThermal uhiClasses analysisBoundary centralCoord ;;
  print [Lit (LF ++ str_mul "=" 60)%string] ;;
  print [Lit "✓ Analysis Complete!"] ;;
  print [Lit (str_mul "=" 60)] ;;
  print [Lit (LF ++ "Next Steps:")%string] ;;
  print [Lit "  1. Check your Google Drive for the exported GeoTIFF"] ;;
  print [Lit "  2. Open uhi_map.html in your browser for visualization"] ;;
  print [Lit "  3. Use QGIS or ArcGIS to further analyze the results"] ;;
  print [Lit (LF ++ "For real-time task status, visit:")%string] ;;
  print [Lit "  https://code.earthengine.google.com/tasks"] ;;
  print [Lit (str_mul "=" 60)].

(** Running the file as a script calls [main]. *)
Definition program : Py unit := main.

(** The exit status of the process: 0 when the script runs to its end, the
    code of an uncaught [SystemExit], and the interpreter's status for an
    uncaught exception otherwise. *)
Definition exit_status (r : Outcome unit) : Z :=
  match r with
  | Ok _ => 0
  | Raised (SystemExit_ code) => code
  | Raised (Exception_ _) => 1
  | Raised KeyboardInterrupt_ => 130
  end.

(** ** Model of the service: what a client object evaluates to *)

Definition Pixel : Type := (Z * Z)%type.

(** A single-band raster: [pix p = None] where the pixel is masked. *)
Record Raster : Type := mkRaster {
  band : string;
  props : string -> option Q;
  pix : Pixel -> option Q
}.

Inductive Composite : Type :=
| Mode
| Median.

(** What the archives hold and how the service selects and reduces scenes. *)
Record Service : Type := mkService {
  archive : string -> list Raster;
  select_band : string -> Raster -> Raster;
  in_date_range : string -> string -> Raster -> bool;
  intersects : FeatureCollection -> Raster -> bool;
  matches : Filter -> Raster -> bool;
  composite : Composite -> list Raster -> Raster;
  inside : FeatureCollection -> Pixel -> bool;
  region_stat : Raster -> ReduceRegionArgs -> Z -> option Q
}.

(** *** The expression language, for the fragment the script uses:
    identifiers, parentheses and the four arithmetic operators *)

Inductive BinOp : Type :=
| Add
| Sub
| Mul
| Div.

Inductive Expr : Type :=
| E_var (name : string)
| E_binop (op : BinOp) (a b : Expr).

Inductive Token : Type :=
| T_lparen
| T_rparen
| T_op (op : BinOp)
| T_ident (name : string).

Definition is_ident_char (c : ascii) : bool :=
  let n := nat_of_ascii c in
  ((65 <=? n) && (n <=? 90) || (97 <=? n) && (n <=? 122)
   || (48 <=? n) && (n <=? 57) || (n =? 95))%nat.

Definition symbol (c : ascii) : option (list Token) :=
  if Ascii.eqb c " " then Some []
  else if Ascii.eqb c "(" then Some [T_lparen]
  else if Ascii.eqb c ")" then Some [T_rparen]
  else if Ascii.eqb c "+" then Some [T_op Add]
  else if Ascii.eqb c "-" then Some [T_op Sub]
  else if Ascii.eqb c "*" then Some [T_op Mul]
  else if Ascii.eqb c "/" then Some [T_op Div]
  else None.

Definition flush (word : string) (ts : list Token) : list Token :=
  match word with
  | EmptyString => ts
  | _ => T_ident word :: ts
  end.

Fixpoint lex (s : string) (word : string) : option (list Token) :=
  match s with
  | EmptyString => Some (flush word [])
  | String c s' =>
      if is_ident_char c then lex s' (word ++ String c EmptyString)%string
      else
        match symbol c, lex s' EmptyString with
        | Some ts, Some rest => Some (flush word (ts ++ rest))
        | _, _ => None
        end
  end.

Fixpoint parse_sum (fuel : nat) (ts : list Token) : option (Expr * list Token) :=
  match fuel with
  | O => None
  | S f =>
      match parse_product f ts with
      | Some (e, rest) => sum_tail f e rest
      | None => None
      end
  end
with sum_tail (fuel : nat) (acc : Expr) (ts : list Token) : option (Expr * list Token) :=
  match fuel with
  | O => None
  | S f =>
      match ts with
      | T_op Add :: rest =>
          match parse_product f rest with
          | Some (e, rest') => sum_tail f (E_binop Add acc e) rest'
          | None => None
          end
      | T_op Sub :: rest =>
          match parse_product f rest with
          | Some (e, rest') => sum_tail f (E_binop Sub acc e) rest'
          | None => None
          end
      | _ => Some (acc, ts)
      end
  end
with parse_product (fuel : nat) (ts : list Token) : option (Expr * list Token) :=
  match fuel with
  | O => None
  | S f =>
      match parse_factor f ts with
      | Some (e, rest) => product_tail f e rest
      | None => None
      end
  end
with product_tail (fuel : nat) (acc : Expr) (ts : list Token) : option (Expr * list Token) :=
  match fuel with
  | O => None
  | S f =>
      match ts with
      | T_op Mul :: rest =>
          match parse_factor f rest with
          | Some (e, rest') => product_tail f (E_binop Mul acc e) rest'
          | None => None
          end
      | T_op Div :: rest =>
          match parse_factor f rest with
          | Some (e, rest') => product_tail f (E_binop Div acc e) rest'
          | None => None
          end
      | _ => Some (acc, ts)
      end
  end
with parse_factor (fuel : nat) (ts : list Token) : option (Expr * list Token) :=
  match fuel with
  | O => None
  | S f =>
      match ts with
      | T_ident x :: rest => Some (E_var x, rest)
      | T_lparen :: rest =>
          match parse_sum f rest with
          | Some (e, T_rparen :: rest') => Some (e, rest')
          | _ => None
          end
      | _ => None
      end
  end.

Definition parse (s : string) : option Expr :=
  match lex s EmptyString with
  | Some ts =>
      match parse_sum (4 * List.length ts + 4) ts with
      | Some (e, []) => Some e
      | _ => None
      end
  | None => None
  end.

(** The value of an expression at one pixel; [env x = None] where the
    variable is unbound or its image is masked.  The service's division
    gives 0 for a division by zero. *)
Fixpoint eval (e : Expr) (env : string -> option Q) : option Q :=
  match e with
  | E_var x => env x
  | E_binop op a b =>
      match eval a env, eval b env with
      | Some x, Some y =>
          match op with
          | Add => Some (x + y)
          | Sub => Some (x - y)
          | Mul => Some (x * y)
          | Div => if Qeq_bool y 0 then Some 0 else Some (x / y)
          end
      | _, _ => None
      end
  end.

(** *** The image operations, pixel by pixel *)

Definition of_bool (b : bool) : Q := if b then 1 else 0.

Definition nonzero (x : Q) : bool := negb (Qeq_bool x 0).

Definition no_props : string -> option Q := fun _ => None.

Definition R_constant (v : Q) : Raster :=
  {| band := "constant"; props := no_props; pix := fun _ => Some v |}.

(** [eq], [gte], [lt] against a number: 1 where the test holds, 0 where it
    does not, masked where the input is. *)
Definition R_compare (test : Q -> bool) (r : Raster) : Raster :=
  {| band := band r;
     props := no_props;
     pix := fun p => option_map (fun x => of_bool (test x)) (pix r p) |}.

Definition R_And (a b : Raster) : Raster :=
  {| band := band a;
     props := no_props;
     pix := fun p =>
       match pix a p, pix b p with
       | Some x, Some y => Some (of_bool (nonzero x && nonzero y))
       | _, _ => None
       end |}.

(** [input.where(test, value)]: the value where the test is non-zero, the
    input where the test is zero or masked; masked where the input is. *)
Definition R_where (input test : Raster) (value : Q) : Raster :=
  {| band := band input;
     props := props input;
     pix := fun p =>
       match pix input p with
       | Some x =>
           match pix test p with
           | Some t => if nonzero t then Some value else Some x
           | None => Some x
           end
       | None => None
       end |}.

(** [i.updateMask(mask)]: a pixel stays valid where it was valid and the
    mask is valid and non-zero. *)
Definition R_updateMask (r mask : Raster) : Raster :=
  {| band := band r;
     props := props r;
     pix := fun p =>
       match pix r p, pix mask p with
       | Some x, Some m => if nonzero m then Some x else None
       | _, _ => None
       end |}.

(** [multiply] and [add] with a number. *)
Definition R_arith (op : Q -> Q -> Q) (r : Raster) (n : option Q) : Raster :=
  {| band := band r;
     props := no_props;
     pix := fun p =>
       match pix r p, n with
       | Some x, Some y => Some (op x y)
       | _, _ => None
       end |}.

Definition R_copyProperties (dst src : Raster) (names : string -> bool) : Raster :=
  {| band := band dst;
     props := fun k => if names k then props src k else props dst k;
     pix := pix dst |}.

Definition R_expression (r : Raster) (expr : string)
  (vars : string -> Pixel -> option Q) : Raster :=
  {| band := band r;
     props := props r;
     pix := fun p =>
       match parse expr with
       | Some e => eval e (fun x => vars x p)
       | None => None
       end |}.

Definition R_rename (r : Raster) (name : string) : Raster :=
  {| band := name; props := props r; pix := pix r |}.

(** [i.clip(region)]: masked outside the region. *)
Definition R_clip (within : Pixel -> bool) (r : Raster) : Raster :=
  {| band := band r;
     props := props r;
     pix := fun p => if within p then pix r p else None |}.

Section Denotation.

Variable s : Service.

(** [scene] is what [image_arg] stands for: the scene a mapped function
    is applied to. *)
Fixpoint denote (scene : Raster) (i : Image) : Raster :=
  match i with
  | image_arg => scene
  | Image_constant v => R_constant v
  | IC_mode c => composite s Mode (denote_collection scene c)
  | IC_median c => composite s Median (denote_collection scene c)
  | Image_eq i v => R_compare (fun x => Qeq_bool x v) (denote scene i)
  | Image_gte i v => R_compare (fun x => Qle_bool v x) (denote scene i)
  | Image_lt i v => R_compare (fun x => negb (Qle_bool v x)) (denote scene i)
  | Image_And a b => R_And (denote scene a) (denote scene b)
  | Image_where input test v =>
      R_where (denote scene input) (denote scene test) v
  | Image_updateMask i mask => R_updateMask (denote scene i) (denote scene mask)
  | Image_multiply i n => R_arith Qmult (denote scene i) (denote_number scene n)
  | Image_add i n => R_arith Qplus (denote scene i) (denote_number scene n)
  | Image_copyProperties dst src names =>
      R_copyProperties (denote scene dst) (denote scene src)
                       (denote_names scene names)
  | Image_expression i expr vars =>
      R_expression (denote scene i) expr (denote_vars scene vars)
  | Image_rename i name => R_rename (denote scene i) name
  | Image_clip i region => R_clip (inside s region) (denote scene i)
  end
with denote_collection (scene : Raster) (c : ImageCollection) : list Raster :=
  match c with
  | ImageCollection_id id => archive s id
  | IC_select c b => List.map (select_band s b) (denote_collection scene c)
  | IC_filterDate c start finish =>
      List.filter (in_date_range s start finish) (denote_collection scene c)
  | IC_filterBounds c region =>
      List.filter (intersects s region) (denote_collection scene c)
  | IC_filter c f => List.filter (matches s f) (denote_collection scene c)
  | IC_map c body =>
      List.map (fun scene' => denote scene' body) (denote_collection scene c)
  end
with denote_number (scene : Raster) (n : Number) : option Q :=
  match n with
  | Number_get i property => props (denote scene i) property
  | Number_reduceRegion_values_get i args index =>
      region_stat s (denote scene i) args index
  end
with denote_names (scene : Raster) (names : PropertyNames) : string -> bool :=
  match names with
  | Image_propertyNames i =>
      fun k => match props (denote scene i) k with Some _ => true | None => false end
  end
with denote_vars (scene : Raster) (vars : VarMap) : string -> Pixel -> option Q :=
  match vars with
  | Vars_end => fun _ _ => None
  | Vars_image name i rest =>
      fun x => if String.eqb x name then pix (denote scene i)
               else denote_vars scene rest x
  | Vars_number name y rest =>
      fun x => if String.eqb x name then fun _ => Some y
               else denote_vars scene rest x
  end.

End Denotation.

(** An image outside of any mapped function is evaluated with no scene. *)
Definition no_scene : Raster :=
  {| band := EmptyString; props := no_props; pix := fun _ => None |}.

(** ** Observations on a run *)

Definition trace {A : Type} (m : Py A) (w : World) : list Event := fst (m w).

Definition outcome {A : Type} (m : Py A) (w : World) : Outcome A := snd (m w).

(** Every event of every run of [m] satisfies [P]. *)
Definition emits {A : Type} (P : Event -> Prop) (m : Py A) : Prop :=
  forall w, Forall P (trace m w).

(** The client offers [task.status()] and [task.active()] to ask after a
    started task. *)
Definition is_status_query (e : Event) : bool :=
  match e with
  | EE_task_status _ => true
  | _ => false
  end.

(** ** The intensity classes, as the specification words them *)

Inductive UHIClass : Type :=
| Mild
| Moderate
| Strong
| VeryStrong
| Extreme.

Definition class_value (k : UHIClass) : Q :=
  match k with
  | Mild => 1
  | Moderate => 2
  | Strong => 3
  | VeryStrong => 4
  | Extreme => 5
  end.

Definition in_band (k : UHIClass) (x : Q) : Prop :=
  match k with
  | Mild => 0 <= x /\ x < 0.005
  | Moderate => 0.005 <= x /\ x < 0.010
  | Strong => 0.010 <= x /\ x < 0.015
  | VeryStrong => 0.015 <= x /\ x < 0.020
  | Extreme => 0.020 <= x
  end.

(** ** Where the configuration values arrive *)

(** A use of a configuration value by a call to one of the two libraries:
    a coordinate sequence, or a date range. *)
Inductive ConfigUse : Type :=
| UsesCoordinate (coords : list Q)
| UsesDateRange (start finish : string).

Definition received_by_geometry (g : Geometry) : list ConfigUse :=
  match g with
  | Geometry_Point coords => [UsesCoordinate coords]
  end.

Fixpoint received_by_features (c : FeatureCollection) : list ConfigUse :=
  match c with
  | FeatureCollection_id _ => []
  | FC_filterBounds c g => received_by_features c ++ received_by_geometry g
  | FC_map c _ => received_by_features c
  end.

Fixpoint received_by_image (i : Image) : list ConfigUse :=
  match i with
  | image_arg => []
  | Image_constant _ => []
  | IC_mode c => received_by_collection c
  | IC_median c => received_by_collection c
  | Image_eq i _ => received_by_image i
  | Image_gte i _ => received_by_image i
  | Image_lt i _ => received_by_image i
  | Image_And a b => received_by_image a ++ received_by_image b
  | Image_where input test _ => received_by_image input ++ received_by_image test
  | Image_updateMask i mask => received_by_image i ++ received_by_image mask
  | Image_multiply i n => received_by_image i ++ received_by_number n
  | Image_add i n => received_by_image i ++ received_by_number n
  | Image_copyProperties dst src names =>
      received_by_image dst ++ received_by_image src ++ received_by_names names
  | Image_expression i _ vars => received_by_image i ++ received_by_vars vars
  | Image_rename i _ => received_by_image i
  | Image_clip i region => received_by_image i ++ received_by_features region
  end
with received_by_collection (c : ImageCollection) : list ConfigUse :=
  match c with
  | ImageCollection_id _ => []
  | IC_select c _ => received_by_collection c
  | IC_filterDate c start finish =>
      received_by_collection c ++ [UsesDateRange start finish]
  | IC_filterBounds c region =>
      received_by_collection c ++ received_by_features region
  | IC_filter c _ => received_by_collection c
  | IC_map c body => received_by_collection c ++ received_by_image body
  end
with received_by_number (n : Number) : list ConfigUse :=
  match n with
  | Number_get i _ => received_by_image i
  | Number_reduceRegion_values_get i args _ =>
      received_by_image i ++ received_by_features (rr_geometry args)
  end
with received_by_names (names : PropertyNames) : list ConfigUse :=
  match names with
  | Image_propertyNames i => received_by_image i
  end
with received_by_vars (vars : VarMap) : list ConfigUse :=
  match vars with
  | Vars_end => []
  | Vars_image _ i rest => received_by_image i ++ received_by_vars rest
  | Vars_number _ _ rest => received_by_vars rest
  end.

(** The configuration values in the arguments of a library call. *)
Definition received (e : Event) : list ConfigUse :=
  match e with
  | Printed _ => []
  | EE_Initialize => []
  | EE_size_getInfo c => received_by_collection c
  | EE_number_getInfo n => received_by_number n
  | EE_task_start req =>
      received_by_image (image req) ++ received_by_features (region req)
  | EE_task_status _ => []
  | Geemap_Map (c1, c0) _ => [UsesCoordinate [c1; c0]]
  | Geemap_addLayer i _ _ => received_by_image i
  | Geemap_addLayerControl => []
  | Geemap_save _ => []
  end.

(** The configuration of [main]. *)
Definition configured (u : ConfigUse) : Prop :=
  u = UsesCoordinate [80.2707; 13.0827] \/
  u = UsesDateRange "2023-01-01" "2024-12-31".

(** ** Sample worlds *)

(** Every call succeeds. *)
Definition world_ok : World :=
  {| Initialize_result := Ok tt;
     size_getInfo := fun _ => Ok 12%Z;
     number_getInfo := fun _ => Ok 305;
     task_start := fun _ => Ok "6QXZJ4ABCDEFGHIJKLMNOPQR";
     geemap_Map := fun _ _ => Ok tt;
     geemap_addLayer := fun _ _ _ => Ok tt;
     geemap_addLayerControl := Ok tt;
     geemap_save := fun _ => Ok tt |}.

(** No credentials: initialisation raises. *)
Definition world_unauthenticated : World :=
  {| Initialize_result := Raised (Exception_ "Please authorize access to your Earth Engine account");
     size_getInfo := size_getInfo world_ok;
     number_getInfo := number_getInfo world_ok;
     task_start := task_start world_ok;
     geemap_Map := geemap_Map world_ok;
     geemap_addLayer := geemap_addLayer world_ok;
     geemap_addLayerControl := geemap_addLayerControl world_ok;
     geemap_save := geemap_save world_ok |}.

(** The map cannot be written. *)
Definition world_save_fails : World :=
  {| Initialize_result := Ok tt;
     size_getInfo := size_getInfo world_ok;
     number_getInfo := number_getInfo world_ok;
     task_start := task_start world_ok;
     geemap_Map := geemap_Map world_ok;
     geemap_addLayer := geemap_addLayer world_ok;
     geemap_addLayerControl := geemap_addLayerControl world_ok;
     geemap_save := fun _ => Raised (Exception_ "Permission denied: 'uhi_map.html'") |}.

(** The user interrupts the process while the map is written. *)
Definition world_interrupted : World :=
  {| Initialize_result := Ok tt;
     size_getInfo := size_getInfo world_ok;
     number_getInfo := number_getInfo world_ok;
     task_start := task_start world_ok;
     geemap_Map := geemap_Map world_ok;
     geemap_addLayer := geemap_addLayer world_ok;
     geemap_addLayerControl := geemap_addLayerControl world_ok;
     geemap_save := fun _ => Raised KeyboardInterrupt_ |}.

(** ** A sample service: one scene *)

Definition sample_scene : Raster :=
  {| band := "ST_B10";
     props := fun k =>
       if String.eqb k "TEMPERATURE_MULT_BAND_ST_B10" then Some 0.00341802
       else if String.eqb k "TEMPERATURE_ADD_BAND_ST_B10" then Some 149
       else None;
     pix := fun p => if Z.eqb (fst p) 0 then Some 45000 else None |}.

Definition sample_service : Service :=
  {| archive := fun _ => [sample_scene];
     select_band := fun _ r => r;
     in_date_range := fun _ _ _ => true;
     intersects := fun _ _ => true;
     matches := fun _ _ => true;
     composite := fun _ scenes => List.hd no_scene scenes;
     inside := fun _ p => Z.eqb (snd p) 0;
     region_stat := fun _ _ _ => Some 305 |}.

(** An index raster with the value 0.007 everywhere. *)
Definition sample_index : Raster :=
  {| band := "UHI_Index"; props := no_props; pix := fun _ => Some 0.007 |}.

(** The analysis boundary as [get_roi] builds it from the configured
    coordinates. *)
Definition sample_boundary : FeatureCollection :=
  FC_map (FC_filterBounds (FeatureCollection_id "FAO/GAUL/2015/level1")
                          (Geometry_Point [80.2707; 13.0827]))
         (Feature_simplify feature_arg 1000).


(** ** Judgements on a run in a given world *)

(** Every event of the run satisfies [P], and a value that the run returns
    satisfies [Q]. *)
Definition holds {A : Type} (w : World) (m : Py A)
  (P : Event -> Prop) (Q : A -> Prop) : Prop :=
  Forall P (trace m w) /\ forall a, outcome m w = Ok a -> Q a.

(** The calls of the script receive the configuration as [main] sets it,
    but for the map, whose centre is [(centralCoord[1], centralCoord[0])]. *)
Definition passes_configuration (e : Event) : Prop :=
  match e with
  | Geemap_Map center _ => center = (13.0827, 80.2707)
  | _ => Forall configured (received e)
  end.

Definition is_clip (i : Image) : bool :=
  match i with
  | Image_clip _ _ => true
  | _ => false
  end.

(** The image of an export or of a map layer is the clip of a handle that
    is not itself a clip. *)
Definition clips_once (e : Event) : Prop :=
  match e with
  | EE_task_start req =>
      exists i, image req = Image_clip i (region req) /\ is_clip i = false
  | Geemap_addLayer layer _ _ =>
      exists i r, layer = Image_clip i r /\ is_clip i = false
  | _ => True
  end.

(** Handles that carry the configuration as [main] sets it. *)
Definition clean_features (c : FeatureCollection) : Prop :=
  Forall configured (received_by_features c).

Definition clean_image (i : Image) : Prop :=
  Forall configured (received_by_image i).

Definition clean_collection (c : ImageCollection) : Prop :=
  Forall configured (received_by_collection c).

(** What the world answers to a call of the mapping library. *)
Definition geemap_answer (w : World) (e : Event) : Outcome unit :=
  match e with
  | Geemap_Map center zoom => geemap_Map w center zoom
  | Geemap_addLayer i vis name => geemap_addLayer w i vis name
  | Geemap_addLayerControl => geemap_addLayerControl w
  | Geemap_save file => geemap_save w file
  | _ => Ok tt
  end.

(** ** The order of the library calls *)

Inductive CallKind : Type :=
| K_Initialize
| K_size_getInfo
| K_number_getInfo
| K_task_start
| K_task_status
| K_Map
| K_addLayer
| K_addLayerControl
| K_save.

Definition kind_of (e : Event) : option CallKind :=
  match e with
  | Printed _ => None
  | EE_Initialize => Some K_Initialize
  | EE_size_getInfo _ => Some K_size_getInfo
  | EE_number_getInfo _ => Some K_number_getInfo
  | EE_task_start _ => Some K_task_start
  | EE_task_status _ => Some K_task_status
  | Geemap_Map _ _ => Some K_Map
  | Geemap_addLayer _ _ _ => Some K_addLayer
  | Geemap_addLayerControl => Some K_addLayerControl
  | Geemap_save _ => Some K_save
  end.

(** The library calls of a trace, in the order they were issued. *)
Fixpoint calls (t : list Event) : list CallKind :=
  match t with
  | [] => []
  | e :: t' =>
      match kind_of e with
      | Some k => k :: calls t'
      | None => calls t'
      end
  end.

Definition is_prefix {A : Type} (l l' : list A) : Prop :=
  exists rest, l' = l ++ rest.

(** The run issues calls of [l], in order, from the first on. *)
Definition within {A : Type} (w : World) (m : Py A) (l : list CallKind) : Prop :=
  is_prefix (calls (trace m w)) l.

(** As [within], and a run that returns has issued all of [l]. *)
Definition in_order {A : Type} (w : World) (m : Py A) (l : list CallKind) : Prop :=
  is_prefix (calls (trace m w)) l /\
  forall a, outcome m w = Ok a -> calls (trace m w) = l.

(** The world answers the call by raising [e]. *)
Definition raised_by (w : World) (call : Event) (e : PyExc) : Prop :=
  match call with
  | Printed _ => False
  | EE_Initialize => Initialize_result w = Raised e
  | EE_size_getInfo c => size_getInfo w c = Raised e
  | EE_number_getInfo n => number_getInfo w n = Raised e
  | EE_task_start req => task_start w req = Raised e
  | EE_task_status _ => False
  | Geemap_Map center zoom => geemap_Map w center zoom = Raised e
  | Geemap_addLayer i vis name => geemap_addLayer w i vis name = Raised e
  | Geemap_addLayerControl => geemap_addLayerControl w = Raised e
  | Geemap_save file => geemap_save w file = Raised e
  end.

(** The first line of the aggregation step. *)
Definition compute_lst_banner : Event :=
  Printed [Lit (LF ++ "🌡️  Computing median Land Surface Temperature...")%string].

(** How a run that ends with the exception [e] came to it: the last thing
    the process did was a call that raised [e]; or the initialisation
    raised an instance of [Exception] and the handler called [exit(1)]; or
    the client refused the parameters of the regional mean, the first line
    of the aggregation step being the last thing the process did. *)
Definition fatal (w : World) (e : PyExc) (t : list Event) : Prop :=
  (exists t0 call, t = t0 ++ [call] /\ raised_by w call e) \/
  (e = SystemExit_ 1 /\ exists msg, Initialize_result w = Raised (Exception_ msg)) \/
  (e = Exception_ reducer_cast_error /\ exists t0, t = t0 ++ [compute_lst_banner]).

(** A run of [m] that ends with an exception came to it as [fatal] says. *)
Definition fails_fatally {A : Type} (w : World) (m : Py A) : Prop :=
  forall e, outcome m w = Raised e -> fatal w e (trace m w).

(** What a run can do before the regional mean is asked for. *)
Definition precedes_the_mean (e : Event) : Prop :=
  match e with
  | Printed _ | EE_Initialize | EE_size_getInfo _ => True
  | _ => False
  end.

(** ** More sample worlds *)

(** The service does not answer the request for the number of scenes. *)
Definition world_count_fails : World :=
  {| Initialize_result := Ok tt;
     size_getInfo := fun _ => Raised (Exception_ "Computation timed out.");
     number_getInfo := number_getInfo world_ok;
     task_start := task_start world_ok;
     geemap_Map := geemap_Map world_ok;
     geemap_addLayer := geemap_addLayer world_ok;
     geemap_addLayerControl := geemap_addLayerControl world_ok;
     geemap_save := geemap_save world_ok |}.


(** ** The monad: how runs compose *)

Lemma trace_bind {A B : Type} (m : Py A) (k : A -> Py B) (w : World) :
  trace (bind m k) w =
  trace m w ++ match outcome m w with
               | Ok a => trace (k a) w
               | Raised _ => []
               end.
Proof.
  unfold trace, outcome, bind.
  destruct (m w) as [t [a | e]]; simpl.
  - destruct (k a w); reflexivity.
  - symmetry; apply app_nil_r.
Qed.

Lemma outcome_bind {A B : Type} (m : Py A) (k : A -> Py B) (w : World) :
  outcome (bind m k) w =
  match outcome m w with
  | Ok a => outcome (k a) w
  | Raised e => Raised e
  end.
Proof.
  unfold outcome, bind.
  destruct (m w) as [t [a | e]]; simpl; [destruct (k a w) |]; reflexivity.
Qed.

(** ** The classifier *)

Lemma Qle_bool_false (a b : Q) : Qle_bool a b = false <-> b < a.
Proof.
  rewrite <- not_true_iff_false, Qle_bool_iff. split.
  - apply Qnot_le_lt.
  - apply Qlt_not_le.
Qed.

Lemma in_band_unique (k k' : UHIClass) (x : Q) :
  in_band k x -> in_band k' x -> k' = k.
Proof.
  destruct k, k'; simpl; intros H H'; try reflexivity; exfalso; lra.
Qed.

Lemma nonzero_false (m : Q) : nonzero m = false <-> m == 0.
Proof.
  unfold nonzero. rewrite negb_false_iff. apply Qeq_bool_iff.
Qed.

Lemma nonzero_true (m : Q) : nonzero m = true <-> ~ m == 0.
Proof.
  rewrite <- nonzero_false. destruct (nonzero m); split; congruence.
Qed.

Lemma R_updateMask_pix (r mask : Raster) (p : Pixel) :
  pix (R_updateMask r mask) p =
  match pix mask p with
  | Some m => if nonzero m then pix r p else None
  | None => None
  end.
Proof.
  simpl. destruct (pix r p), (pix mask p) as [m |]; try reflexivity;
    destruct (nonzero m); reflexivity.
Qed.

(** ** The thermal scaling *)

Lemma load_landsat_thermal_outcome
  (analysisBoundary : FeatureCollection) (startDate endDate : string) (w : World) :
  exists metadata,
    outcome (load_landsat_thermal analysisBoundary startDate endDate) w
    = match size_getInfo w metadata with
      | Ok _ => Ok (IC_map metadata (apply_thermal_scaling image_arg))
      | Raised e => Raised e
      end.
Proof.
  exists (IC_filter
            (IC_filterDate
               (IC_filterBounds
                  (IC_select (ImageCollection_id "LANDSAT/LC08/C02/T1_L2") "ST_B10")
                  analysisBoundary)
               startDate endDate)
            (Filter_lt "CLOUD_COVER" 10)).
  unfold load_landsat_thermal, outcome, bind, call, print, ret.
  cbv beta iota zeta delta [fst snd].
  destruct (size_getInfo w _); reflexivity.
Qed.

(** ** Rules for the judgements *)

Section Rules.

Context {A B : Type} (w : World) (P : Event -> Prop).

Lemma holds_ret (Q : A -> Prop) (a : A) : Q a -> holds w (ret a) P Q.
Proof.
  intros H; split; [constructor |].
  unfold outcome, ret; simpl. intros a' [= <-]. exact H.
Qed.

Lemma holds_raise (Q : A -> Prop) (e : PyExc) : holds w (raise e) P Q.
Proof.
  split; [constructor |]. unfold outcome, raise; simpl. discriminate.
Qed.

Lemma holds_print (Q : unit -> Prop) (line : list Piece) :
  P (Printed line) -> Q tt -> holds w (print line) P Q.
Proof.
  intros HP HQ; split; [repeat constructor; exact HP |].
  intros []; intros _; exact HQ.
Qed.

Lemma holds_call (Q : A -> Prop) (e : Event) (answer : World -> Outcome A) :
  P e -> (forall a, answer w = Ok a -> Q a) -> holds w (call e answer) P Q.
Proof.
  intros HP HQ; split; [repeat constructor; exact HP | exact HQ].
Qed.

Lemma holds_bind (Q : A -> Prop) (R : B -> Prop) (m : Py A) (k : A -> Py B) :
  holds w m P Q -> (forall a, Q a -> holds w (k a) P R) ->
  holds w (bind m k) P R.
Proof.
  intros [Ht Ho] Hk. split.
  - rewrite trace_bind. apply Forall_app; split; [exact Ht |].
    destruct (outcome m w) as [a | e]; [| constructor].
    apply Hk, Ho; reflexivity.
  - intros b. rewrite outcome_bind.
    destruct (outcome m w) as [a | e]; [| discriminate].
    apply Hk, Ho; reflexivity.
Qed.

Lemma holds_try (Q : A -> Prop) (body : Py A) (handler : PyExc -> Py A) :
  holds w body P Q -> (forall e, holds w (handler e) P Q) ->
  holds w (try_except_Exception body handler) P Q.
Proof.
  unfold holds, trace, outcome, try_except_Exception.
  intros [Ht Ho] Hh.
  destruct (body w) as [t [a | [msg | | code]]]; simpl in *;
    try (split; assumption).
  specialize (Hh (Exception_ msg)).
  destruct (handler (Exception_ msg) w) as [t' r]; simpl in *.
  destruct Hh as [Ht' Ho']. split; [apply Forall_app; split |]; assumption.
Qed.

Lemma holds_weaken (Q Q' : A -> Prop) (m : Py A) :
  holds w m P Q -> (forall a, Q a -> Q' a) -> holds w m P Q'.
Proof.
  intros [Ht Ho] H; split; [exact Ht |]. intros a Ha. apply H, Ho, Ha.
Qed.

End Rules.

Lemma holds_getitem (w : World) (P : Event -> Prop) (R : Q -> Prop)
  (l : list Q) (i : nat) :
  (forall x, nth_error l i = Some x -> R x) -> holds w (getitem l i) P R.
Proof.
  intros H. unfold getitem. destruct (nth_error l i) as [x |].
  - apply holds_ret, H; reflexivity.
  - apply holds_raise.
Qed.

Lemma holds_Point (w : World) (P : Event -> Prop) (R : Geometry -> Prop)
  (coords : list Q) :
  R (Geometry_Point coords) -> holds w (ee_Geometry_Point coords) P R.
Proof.
  intros H. unfold ee_Geometry_Point.
  destruct (Nat.eqb (List.length coords) 2);
    [apply holds_ret, H | apply holds_raise].
Qed.

Lemma holds_reduceRegion (w : World) (P : Event -> Prop) (R : Number -> Prop)
  (i : Image) (c : ReduceRegionCall) (index : Z) :
  (forall args, c = By_name args ->
                R (Number_reduceRegion_values_get i args index)) ->
  holds w (Image_reduceRegion_values_get i c index) P R.
Proof.
  intros H. destruct c as [d | args];
    [apply holds_raise | apply holds_ret, H; reflexivity].
Qed.

(** The aggregation step prints its first line and goes no further. *)
Lemma compute_lst_stops (w : World) (P : Event -> Prop)
  (landsatThermal : ImageCollection) (analysisBoundary : FeatureCollection) :
  P (Printed [Lit (LF ++ "🌡️  Computing median Land Surface Temperature...")%string]) ->
  holds w (compute_lst landsatThermal analysisBoundary) P (fun _ => False).
Proof.
  intros H. unfold compute_lst.
  apply holds_bind with (Q := fun _ => True);
    [apply holds_print; [exact H | exact I] | intros _ _].
  apply holds_bind with (Q := fun _ => False);
    [apply holds_reduceRegion; discriminate | intros ? []].
Qed.

Lemma emits_holds {A : Type} (P : Event -> Prop) (m : Py A) :
  (forall w, holds w m P (fun _ => True)) -> emits P m.
Proof. intros H w. apply H. Qed.

(** Decomposes a script function into its calls and prints. *)
Ltac script_steps :=
  repeat first
    [ apply holds_bind with (Q := fun _ => True); [| intros ? _]
    | apply holds_try; [| intros ?]
    | apply holds_print; [| exact I]
    | apply holds_call; [| intros; exact I]
    | apply holds_ret
    | apply holds_raise
    | apply holds_getitem; intros; exact I
    | apply holds_Point; exact I
    | apply holds_reduceRegion; intros; exact I
    | match goal with
      | |- holds _ (let (_, _) := ?a in _) _ _ => destruct a
      end ].

(** ** The export *)

Lemma export_to_drive_run (uhiClasses : Image) (analysisBoundary : FeatureCollection)
  (output_folder : option string) (w : World) :
  exists req,
    image req = Image_clip uhiClasses analysisBoundary /\
    region req = analysisBoundary /\
    folder req = match output_folder with Some f => f | None => "UrbanHeat" end /\
    fileNamePrefix req = "uhi_classes" /\
    match task_start w req with
    | Ok id =>
        trace (export_to_drive uhiClasses analysisBoundary output_folder) w
        = [Printed [Lit (LF ++ "💾 Exporting to Google Drive (")%string;
                    Fstr (folder req); Lit "/)..."];
           EE_task_start req;
           Printed [Lit "✓ Export task started: "; Fid (Some id)];
           Printed [Lit "  Check your Google Drive ("; Fstr (folder req);
                    Lit "/) for results"];
           Printed [Lit "  Task ID: "; Fid (Some id)]] /\
        outcome (export_to_drive uhiClasses analysisBoundary output_folder) w
        = Ok {| task_config := req; task_id := Some id |}
    | Raised e =>
        trace (export_to_drive uhiClasses analysisBoundary output_folder) w
        = [Printed [Lit (LF ++ "💾 Exporting to Google Drive (")%string;
                    Fstr (folder req); Lit "/)..."];
           EE_task_start req] /\
        outcome (export_to_drive uhiClasses analysisBoundary output_folder) w
        = Raised e
    end.
Proof.
  exists {| image := Image_clip uhiClasses analysisBoundary;
            description := "UHI_Classes_Landsat8_Export";
            folder := match output_folder with Some f => f | None => "UrbanHeat" end;
            fileNamePrefix := "uhi_classes";
            region := analysisBoundary;
            scale := 100;
            crs := "EPSG:4326";
            maxPixels := 1e13;
            fileFormat := "GeoTIFF" |}.
  repeat (split; [reflexivity |]).
  unfold export_to_drive, trace, outcome, bind, call, print, ret.
  cbv beta iota zeta delta [task_config task_id folder fst snd].
  destruct (task_start w _); split; reflexivity.
Qed.

Lemma program_no_status_query : emits (fun e => is_status_query e = false) program.
Proof.
  apply emits_holds; intros w.
  unfold program, main, initialize_earth_engine, load_admin_boundaries, get_roi,
    get_urban_mask, load_landsat_thermal, compute_lst, calculate_uhi_index,
    classify_uhi_intensity, export_to_drive, visualize_interactive, exit.
  script_steps; reflexivity.
Qed.

Ltac unfold_script :=
  unfold initialize_earth_engine, load_admin_boundaries, get_roi,
    get_urban_mask, load_landsat_thermal, compute_lst, calculate_uhi_index,
    classify_uhi_intensity, export_to_drive, visualize_interactive, exit.

(** A step of [main] whose result carries nothing to remember. *)
Ltac plain_step :=
  apply holds_bind with (Q := fun _ => True);
  [ solve [unfold_script; script_steps;
           first [exact I | reflexivity | apply Forall_nil]]
  | intros ? _ ].

(** A step of [main] with a lemma of its own. *)
Ltac step_by lem :=
  eapply holds_bind; [ apply lem; assumption | cbv beta; intros ? ? ].

Ltac open_pair :=
  match goal with
  | |- holds _ (let (_, _) := ?a in _) _ _ => destruct a; simpl fst in *
  end.

(** ** Clipping *)

Lemma Image_clip_fresh (i : Image) (r : FeatureCollection) : Image_clip i r <> i.
Proof.
  revert r. induction i; intros r'; try discriminate.
  intros [= H _]. exact (IHi _ H).
Qed.

Section Clips.

Variable w : World.

Lemma compute_lst_clips (landsatThermal : ImageCollection)
  (analysisBoundary : FeatureCollection) :
  holds w (compute_lst landsatThermal analysisBoundary) clips_once
        (fun r => is_clip (fst r) = false).
Proof. unfold_script; script_steps; try exact I. reflexivity. Qed.

Lemma classify_uhi_intensity_clips (uhiIndex dynamicUrban : Image) :
  holds w (classify_uhi_intensity uhiIndex dynamicUrban) clips_once
        (fun uhiClasses => is_clip uhiClasses = false).
Proof. unfold_script; script_steps; try exact I. reflexivity. Qed.

Lemma export_to_drive_clips (uhiClasses : Image)
  (analysisBoundary : FeatureCollection) (output_folder : option string) :
  is_clip uhiClasses = false ->
  holds w (export_to_drive uhiClasses analysisBoundary output_folder) clips_once
        (fun _ => True).
Proof.
  intros H. unfold_script; script_steps; try exact I.
  exists uhiClasses; split; [reflexivity | exact H].
Qed.

Lemma visualize_interactive_clips (medianThermal uhiClasses : Image)
  (analysisBoundary : FeatureCollection) (centralCoord : list Q) :
  is_clip medianThermal = false -> is_clip uhiClasses = false ->
  holds w (visualize_interactive medianThermal uhiClasses analysisBoundary
             centralCoord) clips_once (fun _ => True).
Proof.
  intros Hm Hu. unfold_script; script_steps; try exact I.
  - exists medianThermal, analysisBoundary; split; [reflexivity | exact Hm].
  - exists uhiClasses, analysisBoundary; split; [reflexivity | exact Hu].
Qed.

Lemma program_clips : holds w program clips_once (fun _ => True).
Proof.
  unfold program, main.
  repeat first
    [ open_pair
    | lazymatch goal with
      | |- holds _ (bind (compute_lst _ _) _) _ _ =>
          step_by compute_lst_clips
      | |- holds _ (bind (classify_uhi_intensity _ _) _) _ _ =>
          step_by classify_uhi_intensity_clips
      | |- holds _ (bind (export_to_drive _ _ _) _) _ _ =>
          step_by export_to_drive_clips
      | |- holds _ (bind (visualize_interactive _ _ _ _) _) _ _ =>
          step_by visualize_interactive_clips
      end
    | plain_step ].
  script_steps; exact I.
Qed.

End Clips.

(** ** The configuration *)

Ltac clean_solver :=
  unfold clean_features, clean_image, clean_collection, passes_configuration,
    received in *;
  simpl;
  repeat first
    [ assumption
    | exact I
    | reflexivity
    | apply Forall_nil
    | apply Forall_app; split
    | apply Forall_cons
    | left; reflexivity
    | right; reflexivity ].

Section Configuration.

Variable w : World.

Lemma load_admin_boundaries_config :
  holds w load_admin_boundaries passes_configuration clean_features.
Proof. unfold_script; script_steps; clean_solver. Qed.

Lemma get_roi_config (adminRegions : FeatureCollection) :
  clean_features adminRegions ->
  holds w (get_roi [80.2707; 13.0827] adminRegions) passes_configuration
        (fun roi => clean_features (fst roi)).
Proof.
  intros H. unfold get_roi.
  apply holds_bind with (Q := fun _ => True);
    [apply holds_print; clean_solver | intros _ _].
  apply holds_bind with (Q := fun pt => pt = Geometry_Point [80.2707; 13.0827]);
    [apply holds_Point; reflexivity | intros pt ->].
  apply holds_ret. clean_solver.
Qed.

Lemma get_urban_mask_config (analysisBoundary : FeatureCollection) :
  clean_features analysisBoundary ->
  holds w (get_urban_mask analysisBoundary "2023-01-01" "2024-12-31")
        passes_configuration clean_image.
Proof. intros H. unfold_script; script_steps; clean_solver. Qed.

Lemma load_landsat_thermal_config (analysisBoundary : FeatureCollection) :
  clean_features analysisBoundary ->
  holds w (load_landsat_thermal analysisBoundary "2023-01-01" "2024-12-31")
        passes_configuration clean_collection.
Proof. intros H. unfold_script; script_steps; clean_solver. Qed.

Lemma compute_lst_config (landsatThermal : ImageCollection)
  (analysisBoundary : FeatureCollection) :
  clean_features analysisBoundary -> clean_collection landsatThermal ->
  holds w (compute_lst landsatThermal analysisBoundary) passes_configuration
        (fun lst => clean_image (fst lst)).
Proof.
  intros Hb Hl. eapply holds_weaken;
    [apply compute_lst_stops; clean_solver | intros ? []].
Qed.

Lemma calculate_uhi_index_config (medianThermal : Image) (meanLST : Q) :
  clean_image medianThermal ->
  holds w (calculate_uhi_index medianThermal meanLST) passes_configuration
        clean_image.
Proof. intros H. unfold_script; script_steps; clean_solver. Qed.

Lemma classify_uhi_intensity_config (uhiIndex dynamicUrban : Image) :
  clean_image dynamicUrban -> clean_image uhiIndex ->
  holds w (classify_uhi_intensity uhiIndex dynamicUrban) passes_configuration
        clean_image.
Proof. intros Hd Hi. unfold_script; script_steps; clean_solver. Qed.

Lemma export_to_drive_config (uhiClasses : Image)
  (analysisBoundary : FeatureCollection) (output_folder : option string) :
  clean_features analysisBoundary -> clean_image uhiClasses ->
  holds w (export_to_drive uhiClasses analysisBoundary output_folder)
        passes_configuration (fun _ => True).
Proof. intros Hb Hu. unfold_script; script_steps; clean_solver. Qed.

Lemma visualize_interactive_config (medianThermal uhiClasses : Image)
  (analysisBoundary : FeatureCollection) :
  clean_features analysisBoundary -> clean_image medianThermal ->
  clean_image uhiClasses ->
  holds w (visualize_interactive medianThermal uhiClasses analysisBoundary
             [80.2707; 13.0827]) passes_configuration (fun _ => True).
Proof.
  intros Hb Hm Hu. unfold visualize_interactive.
  apply holds_bind with (Q := fun _ => True);
    [apply holds_print; clean_solver | intros _ _].
  apply holds_try; [| intros e; script_steps; clean_solver].
  apply holds_bind with (Q := fun c1 => c1 = 13.0827);
    [apply holds_getitem; intros x [= <-]; reflexivity | intros c1 ->].
  apply holds_bind with (Q := fun c0 => c0 = 80.2707);
    [apply holds_getitem; intros x [= <-]; reflexivity | intros c0 ->].
  script_steps; clean_solver.
Qed.

Lemma program_config : holds w program passes_configuration (fun _ => True).
Proof.
  unfold program, main.
  repeat first
    [ open_pair
    | lazymatch goal with
      | |- holds _ (bind load_admin_boundaries _) _ _ =>
          step_by load_admin_boundaries_config
      | |- holds _ (bind (get_roi _ _) _) _ _ =>
          step_by get_roi_config
      | |- holds _ (bind (get_urban_mask _ _ _) _) _ _ =>
          step_by get_urban_mask_config
      | |- holds _ (bind (load_landsat_thermal _ _ _) _) _ _ =>
          step_by load_landsat_thermal_config
      | |- holds _ (bind (compute_lst _ _) _) _ _ =>
          step_by compute_lst_config
      | |- holds _ (bind (calculate_uhi_index _ _) _) _ _ =>
          step_by calculate_uhi_index_config
      | |- holds _ (bind (classify_uhi_intensity _ _) _) _ _ =>
          step_by classify_uhi_intensity_config
      | |- holds _ (bind (export_to_drive _ _ _) _) _ _ =>
          step_by export_to_drive_config
      | |- holds _ (bind (visualize_interactive _ _ _ _) _) _ _ =>
          step_by visualize_interactive_config
      end
    | plain_step ].
  script_steps; clean_solver.
Qed.

End Configuration.

(** ** Initialisation *)

Lemma trace_bind_run {A B : Type} (m : Py A) (k : A -> Py B) (w : World)
  (t : list Event) (a : A) :
  m w = (t, Ok a) -> trace (bind m k) w = t ++ trace (k a) w.
Proof.
  intros H. rewrite trace_bind. unfold trace at 1, outcome. rewrite H. reflexivity.
Qed.

Lemma initialize_earth_engine_ok (w : World) :
  Initialize_result w = Ok tt ->
  initialize_earth_engine w
  = ([EE_Initialize; Printed [Lit "✓ Earth Engine initialized successfully"]],
     Ok tt).
Proof.
  intros H. unfold initialize_earth_engine, try_except_Exception, bind, call, print.
  rewrite H. reflexivity.
Qed.

(** ** The visualisation *)

Ltac geemap_call w :=
  let R := fresh "R" in
  match goal with
  | |- context [geemap_Map w ?c ?z] =>
      destruct (geemap_Map w c z) as [[] | [msg | | code]] eqn:R
  | |- context [geemap_addLayer w ?i ?v ?n] =>
      destruct (geemap_addLayer w i v n) as [[] | [msg | | code]] eqn:R
  | |- context [geemap_addLayerControl w] =>
      destruct (geemap_addLayerControl w) as [[] | [msg | | code]] eqn:R
  | |- context [geemap_save w ?f] =>
      destruct (geemap_save w f) as [[] | [msg | | code]] eqn:R
  end;
  cbn -[LF].

Ltac pick :=
  repeat first [left; reflexivity | right].

(** Closes a run of the step whose calls have all been answered. *)
Ltac reported :=
  let call := fresh "call" in
  let e := fresh "e" in
  let Hin := fresh "Hin" in
  let Hans := fresh "Hans" in
  let Hexc := fresh "Hexc" in
  intros call e Hin Hans Hexc; simpl in Hin;
  repeat (destruct Hin as [<- | Hin];
          [ simpl in Hans;
            first [ discriminate Hans
                  | match goal with
                    | R : ?x = _ |- _ =>
                        rewrite R in Hans;
                        first [ discriminate Hans
                              | injection Hans as <-;
                                first [ discriminate Hexc
                                      | split; [reflexivity | simpl; pick] ] ]
                    end ]
          | ]);
  contradiction.

(** An instance of [Exception] that a call of the step raises is caught:
    the step reports it by a warning line and returns normally. *)
Lemma visualize_interactive_catches (w : World) (medianThermal uhiClasses : Image)
  (analysisBoundary : FeatureCollection) (centralCoord : list Q)
  (call : Event) (e : PyExc) :
  In call (trace (visualize_interactive medianThermal uhiClasses analysisBoundary
                    centralCoord) w) ->
  geemap_answer w call = Raised e ->
  is_Exception e = true ->
  outcome (visualize_interactive medianThermal uhiClasses analysisBoundary
             centralCoord) w = Ok tt /\
  In (Printed [Lit "⚠️  Could not create interactive map: "; Fexc e])
     (trace (visualize_interactive medianThermal uhiClasses analysisBoundary
               centralCoord) w).
Proof.
  revert call e.
  unfold visualize_interactive, trace, outcome, bind, call, print, ret,
    try_except_Exception, getitem, raise.
  destruct (nth_error centralCoord 1) as [c1 |];
    [destruct (nth_error centralCoord 0) as [c0 |] |]; cbn -[LF].
  2, 3: reported.
  geemap_call w; [| reported ..].
  geemap_call w; [| reported ..].
  geemap_call w; [| reported ..].
  geemap_call w; [| reported ..].
  geemap_call w; reported.
Qed.

(** Closes a run of the step that a call has left by raising. *)
Ltac escaped :=
  first
    [ left; reflexivity
    | right;
      match goal with
      | R : ?x = Raised ?e |- _ =>
          match x with
          | geemap_Map _ ?c ?z => exists (Geemap_Map c z), e
          | geemap_addLayer _ ?i ?v ?n => exists (Geemap_addLayer i v n), e
          | geemap_addLayerControl _ => exists Geemap_addLayerControl, e
          | geemap_save _ ?f => exists (Geemap_save f), e
          end
      end;
      split; [simpl; pick |];
      split; [simpl; assumption |]; split; reflexivity ].

(** The step returns normally unless a call of it raises something that is
    not an instance of [Exception]. *)
Lemma visualize_interactive_outcome (w : World) (medianThermal uhiClasses : Image)
  (analysisBoundary : FeatureCollection) (centralCoord : list Q) :
  outcome (visualize_interactive medianThermal uhiClasses analysisBoundary
             centralCoord) w = Ok tt \/
  exists call e,
    In call (trace (visualize_interactive medianThermal uhiClasses
                      analysisBoundary centralCoord) w) /\
    geemap_answer w call = Raised e /\ is_Exception e = false /\
    outcome (visualize_interactive medianThermal uhiClasses analysisBoundary
               centralCoord) w = Raised e.
Proof.
  unfold visualize_interactive, trace, outcome, bind, call, print, ret,
    try_except_Exception, getitem, raise.
  destruct (nth_error centralCoord 1) as [c1 |];
    [destruct (nth_error centralCoord 0) as [c0 |] |]; cbn -[LF].
  2, 3: left; reflexivity.
  geemap_call w; [| escaped ..].
  geemap_call w; [| escaped ..].
  geemap_call w; [| escaped ..].
  geemap_call w; [| escaped ..].
  geemap_call w; escaped.
Qed.

Lemma trace_try {A : Type} (body : Py A) (handler : PyExc -> Py A) (w : World) :
  exists rest, trace (try_except_Exception body handler) w = trace body w ++ rest.
Proof.
  unfold trace, try_except_Exception.
  destruct (body w) as [t [a | [msg | | code]]]; simpl;
    try (exists []; symmetry; apply app_nil_r).
  destruct (handler (Exception_ msg) w) as [t' r]. exists t'. reflexivity.
Qed.

(** The first call of the step. *)
Lemma visualize_interactive_centre_run
  (w : World) (medianThermal uhiClasses : Image)
  (analysisBoundary : FeatureCollection) (c0 c1 : Q) (more : list Q) :
  exists rest,
    trace (visualize_interactive medianThermal uhiClasses analysisBoundary
             (c0 :: c1 :: more)) w
    = Printed [Lit (LF ++ "🗺️  Creating interactive visualization...")%string]
      :: Geemap_Map (c1, c0) 10 :: rest.
Proof.
  unfold visualize_interactive.
  erewrite trace_bind_run by reflexivity.
  match goal with
  | |- context [trace (try_except_Exception ?b ?h) w] =>
      destruct (trace_try b h w) as [rest ->]
  end.
  do 2 (erewrite trace_bind_run by reflexivity; cbv beta).
  rewrite trace_bind. eexists. reflexivity.
Qed.

(** ** Where a run stops *)

(** No run gets past the aggregation step. *)
Lemma program_stops (w : World) :
  holds w program precedes_the_mean (fun _ => False).
Proof.
  unfold program, main.
  repeat first
    [ open_pair
    | lazymatch goal with
      | |- holds _ (bind (compute_lst _ _) _) _ _ =>
          eapply holds_bind; [apply compute_lst_stops; exact I | intros ? []]
      end
    | plain_step ].
Qed.

(** ** The claims *)

(** C1. On a pixel that the urban mask selects and where the index has the
    value [x]: if [x >= 0], exactly one of the five bands holds [x] and the
    classifier gives that band's class; if [x < 0], no band holds [x] and
    the pixel keeps the initial constant 0. *)
Theorem classify_uhi_intensity_bands
  (s : Service) (scene : Raster) (uhiIndex dynamicUrban : Image) (w : World)
  (p : Pixel) (x m : Q) :
  pix (denote s scene uhiIndex) p = Some x ->
  pix (denote s scene dynamicUrban) p = Some m ->
  nonzero m = true ->
  exists uhiClasses,
    outcome (classify_uhi_intensity uhiIndex dynamicUrban) w = Ok uhiClasses /\
    (0 <= x ->
     exists k, in_band k x /\ (forall k', in_band k' x -> k' = k) /\
               pix (denote s scene uhiClasses) p = Some (class_value k)) /\
    (x < 0 ->
     (forall k, ~ in_band k x) /\
     pix (denote s scene uhiClasses) p = Some 0).
Proof.
  intros Hx Hm Hnz.
  eexists; split; [reflexivity |].
  simpl. rewrite Hx, Hm, Hnz. simpl.
  destruct (Qle_bool 0 x) eqn:H0;
    destruct (Qle_bool 0.005 x) eqn:H1;
    destruct (Qle_bool 0.010 x) eqn:H2;
    destruct (Qle_bool 0.015 x) eqn:H3;
    destruct (Qle_bool 0.020 x) eqn:H4;
    rewrite ?Qle_bool_iff, ?Qle_bool_false in *;
    try (exfalso; lra); simpl; split.
  all: try (intros Hneg; exfalso; lra).
  all: try (intros _;
     first [ exists Mild; simpl; split; [lra |]
           | exists Moderate; simpl; split; [lra |]
           | exists Strong; simpl; split; [lra |]
           | exists VeryStrong; simpl; split; [lra |]
           | exists Extreme; simpl; split; [lra |] ];
     split; [ intros k' Hk'; eapply in_band_unique; [| exact Hk']; simpl; lra
            | reflexivity ]).
  intros Hneg; split; [intros k Hk; destruct k; simpl in Hk; lra | reflexivity].
Qed.

Lemma classify_uhi_intensity_bands_witness :
  nonzero 1 = true /\
  exists uhiClasses,
    outcome (classify_uhi_intensity image_arg (Image_constant 1)) world_ok
    = Ok uhiClasses /\
    (0 <= 0.007 ->
     exists k, in_band k 0.007 /\ (forall k', in_band k' 0.007 -> k' = k) /\
               pix (denote sample_service sample_index uhiClasses) (0, 0)%Z
               = Some (class_value k)) /\
    (0.007 < 0 ->
     (forall k, ~ in_band k 0.007) /\
     pix (denote sample_service sample_index uhiClasses) (0, 0)%Z = Some 0).
Proof.
  split; [reflexivity |].
  apply (classify_uhi_intensity_bands sample_service sample_index image_arg
           (Image_constant 1) world_ok (0, 0)%Z 0.007 1); reflexivity.
Defined.
(** C2. For an image with the raw value [v] at a pixel and the properties
    [scale] and [offset] in its metadata, the scaled image has exactly
    [v * scale + offset] at that pixel, and is masked where the raw image
    is; the thermal loader, which returns once the service has told the
    number of scenes, applies this to every scene it selected, each with
    its own metadata. *)
Theorem apply_thermal_scaling_formula
  (s : Service) (scene : Raster) (image : Image) (scale offset : Q) :
  props (denote s scene image) "TEMPERATURE_MULT_BAND_ST_B10" = Some scale ->
  props (denote s scene image) "TEMPERATURE_ADD_BAND_ST_B10" = Some offset ->
  (forall p v, pix (denote s scene image) p = Some v ->
     pix (denote s scene (apply_thermal_scaling image)) p
     = Some (v * scale + offset)) /\
  (forall p, pix (denote s scene image) p = None ->
     pix (denote s scene (apply_thermal_scaling image)) p = None) /\
  (forall analysisBoundary startDate endDate w,
     exists metadata,
       outcome (load_landsat_thermal analysisBoundary startDate endDate) w
       = match size_getInfo w metadata with
         | Ok _ => Ok (IC_map metadata (apply_thermal_scaling image_arg))
         | Raised e => Raised e
         end /\
       denote_collection s scene (IC_map metadata (apply_thermal_scaling image_arg))
       = List.map (fun scene' => denote s scene' (apply_thermal_scaling image_arg))
                  (denote_collection s scene metadata)).
Proof.
  intros Hscale Hoffset. repeat split.
  - intros p v Hv. simpl. rewrite Hv, Hscale, Hoffset. reflexivity.
  - intros p Hv. simpl. rewrite Hv. reflexivity.
  - intros ab sd ed w.
    destruct (load_landsat_thermal_outcome ab sd ed w) as [metadata H].
    exists metadata. split; [exact H | reflexivity].
Qed.

Lemma apply_thermal_scaling_formula_witness :
  props sample_scene "TEMPERATURE_MULT_BAND_ST_B10" = Some 0.00341802 /\
  props sample_scene "TEMPERATURE_ADD_BAND_ST_B10" = Some 149 /\
  pix sample_scene (0, 0)%Z = Some 45000 /\
  pix (denote sample_service sample_scene (apply_thermal_scaling image_arg)) (0, 0)%Z
  = Some (45000 * 0.00341802 + 149).
Proof.
  repeat (split; [reflexivity |]).
  apply (proj1 (apply_thermal_scaling_formula sample_service sample_scene
                  image_arg 0.00341802 149 eq_refl eq_refl)).
  reflexivity.
Defined.
(** C3. For a mean other than zero, the index image is named ['UHI_Index']
    and has, at every pixel where the median temperature has a value [t],
    the value [(t - MEAN) / MEAN], and no value where the median is masked;
    [MEAN] is the scalar that the calculator is handed as the mean of the
    aggregation step. *)
Theorem calculate_uhi_index_relative_deviation
  (s : Service) (scene : Raster) (medianThermal : Image) (meanLST : Q)
  (w : World) :
  ~ meanLST == 0 ->
  exists uhiIndex,
    outcome (calculate_uhi_index medianThermal meanLST) w = Ok uhiIndex /\
    band (denote s scene uhiIndex) = "UHI_Index" /\
    forall p,
      pix (denote s scene uhiIndex) p
      = option_map (fun t => (t - meanLST) / meanLST)
                   (pix (denote s scene medianThermal) p).
Proof.
  intros Hmean.
  eexists; split; [reflexivity |]. split; [reflexivity |].
  intros p. cbn [denote R_rename pix R_expression].
  change (parse "(TIR - MEAN) / MEAN")
    with (Some (E_binop Div (E_binop Sub (E_var "TIR") (E_var "MEAN"))
                        (E_var "MEAN"))).
  cbn [eval denote_vars].
  change (String.eqb "TIR" "TIR") with true.
  change (String.eqb "MEAN" "TIR") with false.
  change (String.eqb "MEAN" "MEAN") with true.
  cbn iota.
  destruct (pix (denote s scene medianThermal) p) as [t |]; [| reflexivity].
  simpl. destruct (Qeq_bool meanLST 0) eqn:Hz; [| reflexivity].
  apply Qeq_bool_iff in Hz. contradiction.
Qed.

Lemma calculate_uhi_index_relative_deviation_witness :
  ~ 305 == 0 /\
  exists uhiIndex,
    outcome (calculate_uhi_index image_arg 305) world_ok = Ok uhiIndex /\
    band (denote sample_service sample_scene uhiIndex) = "UHI_Index" /\
    forall p,
      pix (denote sample_service sample_scene uhiIndex) p
      = option_map (fun t => (t - 305) / 305)
                   (pix (denote sample_service sample_scene image_arg) p).
Proof.
  split; [discriminate |].
  apply (calculate_uhi_index_relative_deviation sample_service sample_scene
           image_arg 305 world_ok).
  discriminate.
Defined.

(** C4. The classified output has a value only on pixels that the urban
    mask selects: where the mask is zero, and where the mask itself is
    masked, the output is masked; wherever the output has a value, the mask
    is valid and non-zero. *)
Theorem classify_uhi_intensity_urban_only
  (s : Service) (scene : Raster) (uhiIndex dynamicUrban : Image) (w : World)
  (p : Pixel) :
  exists uhiClasses,
    outcome (classify_uhi_intensity uhiIndex dynamicUrban) w = Ok uhiClasses /\
    (forall m, pix (denote s scene dynamicUrban) p = Some m -> m == 0 ->
               pix (denote s scene uhiClasses) p = None) /\
    (pix (denote s scene dynamicUrban) p = None ->
     pix (denote s scene uhiClasses) p = None) /\
    (forall v, pix (denote s scene uhiClasses) p = Some v ->
               exists m, pix (denote s scene dynamicUrban) p = Some m /\ ~ m == 0).
Proof.
  eexists; split; [reflexivity |].
  cbn [denote]. rewrite R_updateMask_pix.
  destruct (pix (denote s scene dynamicUrban) p) as [m |].
  - destruct (nonzero m) eqn:Hnz.
    + apply nonzero_true in Hnz. repeat split; try discriminate.
      * intros m' Hm' Hz. injection Hm' as <-. contradiction.
      * intros v _. exists m; split; [reflexivity | exact Hnz].
    + repeat split; discriminate.
  - repeat split; discriminate.
Qed.
(** C5. If the initialisation raises an exception, the program prints the
    failure, the error and the guidance, issues no other call, and ends
    with [SystemExit(1)], a non-zero exit status; if it succeeds, the
    program goes on: the configuration is printed and the steps that follow
    run, up to the first request to the service. *)
Theorem initialization_failure_is_fatal (w : World) :
  (forall msg,
     Initialize_result w = Raised (Exception_ msg) ->
     trace program w
     = [Printed [Lit (str_mul "=" 60)];
        Printed [Lit "Urban Heat Island Detection using Landsat 8"];
        Printed [Lit "Google Earth Engine Python API"];
        Printed [Lit (str_mul "=" 60)];
        EE_Initialize;
        Printed [Lit "✗ Earth Engine initialization failed"];
        Printed [Lit "  Error: "; Fexc (Exception_ msg)];
        Printed [Lit (LF ++ "Please authenticate with Google Cloud:")%string];
        Printed [Lit "  Run: earthengine authenticate"]] /\
     outcome program w = Raised (SystemExit_ 1) /\
     exit_status (outcome program w) <> 0%Z) /\
  (Initialize_result w = Ok tt ->
   exists rest,
     trace program w
     = [Printed [Lit (str_mul "=" 60)];
        Printed [Lit "Urban Heat Island Detection using Landsat 8"];
        Printed [Lit "Google Earth Engine Python API"];
        Printed [Lit (str_mul "=" 60)];
        EE_Initialize;
        Printed [Lit "✓ Earth Engine initialized successfully"];
        Printed [Lit (LF ++ "⚙️  Configuration:")%string];
        Printed [Lit "  Location: "; Flist [80.2707; 13.0827]];
        Printed [Lit "  Analysis Period: "; Fstr "2023-01-01"; Lit " to ";
                 Fstr "2024-12-31"];
        Printed [Lit "  Focus Months: May - September (summer)"];
        Printed [Lit (LF ++ "📍 Loading FAO Admin Boundaries...")%string];
        Printed [Lit (LF ++ "🎯 Extracting ROI for coordinates: ")%string;
                 Flist [80.2707; 13.0827]];
        Printed [Lit (LF ++ "🏙️  Loading Dynamic World urban classification...")%string];
        Printed [Lit "✓ Urban mask created (Class 6 - Built Area)"]]
       ++ rest).
Proof.
  split.
  - intros msg H.
    assert (E : program w
                = ([Printed [Lit (str_mul "=" 60)];
                    Printed [Lit "Urban Heat Island Detection using Landsat 8"];
                    Printed [Lit "Google Earth Engine Python API"];
                    Printed [Lit (str_mul "=" 60)];
                    EE_Initialize;
                    Printed [Lit "✗ Earth Engine initialization failed"];
                    Printed [Lit "  Error: "; Fexc (Exception_ msg)];
                    Printed [Lit (LF ++ "Please authenticate with Google Cloud:")%string];
                    Printed [Lit "  Run: earthengine authenticate"]],
                   Raised (SystemExit_ 1))).
    { unfold program, main, initialize_earth_engine, try_except_Exception,
        bind, call, print, exit, raise.
      rewrite H. reflexivity. }
    unfold trace, outcome. rewrite E. simpl.
    repeat split. discriminate.
  - intros H. unfold program, main.
    do 4 (erewrite trace_bind_run by reflexivity; cbv beta).
    erewrite trace_bind_run by (apply initialize_earth_engine_ok; exact H);
      cbv beta.
    do 7 (erewrite trace_bind_run by reflexivity; cbv beta iota).
    cbn [app]. eexists. reflexivity.
Qed.

Lemma initialization_failure_is_fatal_witness :
  Initialize_result world_unauthenticated
  = Raised (Exception_ "Please authorize access to your Earth Engine account") /\
  outcome program world_unauthenticated = Raised (SystemExit_ 1) /\
  exit_status (outcome program world_unauthenticated) <> 0%Z.
Proof.
  split; [reflexivity |].
  apply (proj1 (initialization_failure_is_fatal world_unauthenticated)
               "Please authorize access to your Earth Engine account" eq_refl).
Defined.

(** C6 (as amended). Every exception that is an instance of [Exception]
    and that a call of the visualisation step raises is caught inside the
    step: a warning with the exception is printed and the step returns
    normally, so that whatever the caller has after the step runs as if
    nothing had been raised; only an exception that is not an instance of
    [Exception] can leave the step. *)
Theorem visualization_failure_is_not_fatal
  (w : World) (medianThermal uhiClasses : Image)
  (analysisBoundary : FeatureCollection) (centralCoord : list Q)
  (call : Event) (e : PyExc) :
  In call (trace (visualize_interactive medianThermal uhiClasses analysisBoundary
                    centralCoord) w) ->
  geemap_answer w call = Raised e ->
  is_Exception e = true ->
  outcome (visualize_interactive medianThermal uhiClasses analysisBoundary
             centralCoord) w = Ok tt /\
  In (Printed [Lit "⚠️  Could not create interactive map: "; Fexc e])
     (trace (visualize_interactive medianThermal uhiClasses analysisBoundary
               centralCoord) w) /\
  (forall (B : Type) (rest : Py B),
     trace (visualize_interactive medianThermal uhiClasses analysisBoundary
              centralCoord ;; rest) w
     = trace (visualize_interactive medianThermal uhiClasses analysisBoundary
                centralCoord) w ++ trace rest w /\
     outcome (visualize_interactive medianThermal uhiClasses analysisBoundary
                centralCoord ;; rest) w
     = outcome rest w) /\
  (forall medianThermal' uhiClasses' analysisBoundary' centralCoord',
     outcome (visualize_interactive medianThermal' uhiClasses' analysisBoundary'
                centralCoord') w = Ok tt \/
     exists call' e',
       In call' (trace (visualize_interactive medianThermal' uhiClasses'
                          analysisBoundary' centralCoord') w) /\
       geemap_answer w call' = Raised e' /\ is_Exception e' = false /\
       outcome (visualize_interactive medianThermal' uhiClasses' analysisBoundary'
                  centralCoord') w = Raised e').
Proof.
  intros Hin Hans Hexc.
  destruct (visualize_interactive_catches w medianThermal uhiClasses
              analysisBoundary centralCoord call e Hin Hans Hexc) as [Hout Hwarn].
  split; [exact Hout | split; [exact Hwarn | split]].
  - intros B rest. rewrite trace_bind, outcome_bind, Hout. split; reflexivity.
  - intros mt' uc' ab' cc'. apply visualize_interactive_outcome.
Qed.

Lemma visualization_failure_is_not_fatal_witness :
  geemap_answer world_save_fails (Geemap_save "uhi_map.html")
  = Raised (Exception_ "Permission denied: 'uhi_map.html'") /\
  outcome (visualize_interactive (IC_median (ImageCollection_id "LANDSAT/LC08/C02/T1_L2"))
             (Image_constant 3) (FeatureCollection_id "FAO/GAUL/2015/level1")
             [80.2707; 13.0827]) world_save_fails = Ok tt.
Proof.
  split; [reflexivity |].
  apply (visualization_failure_is_not_fatal world_save_fails
           (IC_median (ImageCollection_id "LANDSAT/LC08/C02/T1_L2"))
           (Image_constant 3) (FeatureCollection_id "FAO/GAUL/2015/level1")
           [80.2707; 13.0827] (Geemap_save "uhi_map.html")
           (Exception_ "Permission denied: 'uhi_map.html'")).
  - apply (nth_error_In _ 5%nat). reflexivity.
  - reflexivity.
  - reflexivity.
Defined.

(** C6, the claim as stated fails: an interrupt raised while the map is
    written is not an instance of [Exception]; it is not caught inside the
    step, no warning is printed, the save being the last thing the step
    did, and what the caller has after the step does not run. *)
Lemma visualization_interrupt_is_fatal :
  geemap_save world_interrupted "uhi_map.html" = Raised KeyboardInterrupt_ /\
  outcome (visualize_interactive (IC_median (ImageCollection_id "LANDSAT/LC08/C02/T1_L2"))
             (Image_constant 3) (FeatureCollection_id "FAO/GAUL/2015/level1")
             [80.2707; 13.0827]) world_interrupted
  = Raised KeyboardInterrupt_ /\
  last (trace (visualize_interactive
                 (IC_median (ImageCollection_id "LANDSAT/LC08/C02/T1_L2"))
                 (Image_constant 3) (FeatureCollection_id "FAO/GAUL/2015/level1")
                 [80.2707; 13.0827]) world_interrupted) EE_Initialize
  = Geemap_save "uhi_map.html" /\
  outcome (visualize_interactive
             (IC_median (ImageCollection_id "LANDSAT/LC08/C02/T1_L2"))
             (Image_constant 3) (FeatureCollection_id "FAO/GAUL/2015/level1")
             [80.2707; 13.0827] ;;
           print [Lit "✓ Analysis Complete!"]) world_interrupted
  = Raised KeyboardInterrupt_ /\
  last (trace (visualize_interactive
                 (IC_median (ImageCollection_id "LANDSAT/LC08/C02/T1_L2"))
                 (Image_constant 3) (FeatureCollection_id "FAO/GAUL/2015/level1")
                 [80.2707; 13.0827] ;;
               print [Lit "✓ Analysis Complete!"]) world_interrupted) EE_Initialize
  = Geemap_save "uhi_map.html" /\
  exit_status (Raised KeyboardInterrupt_) <> 0%Z.
Proof.
  repeat split; try (vm_compute; reflexivity). discriminate.
Qed.

(** C7. The export step prints, starts the task, and on success prints the
    task identifier and returns the started task; when the start raises,
    the exception leaves the step unhandled.  Neither the step nor any
    other part of the program ever asks after the status of a task. *)
Theorem export_to_drive_fire_and_forget
  (uhiClasses : Image) (analysisBoundary : FeatureCollection)
  (output_folder : option string) (w : World) :
  (exists req,
     match task_start w req with
     | Ok id =>
         trace (export_to_drive uhiClasses analysisBoundary output_folder) w
         = [Printed [Lit (LF ++ "💾 Exporting to Google Drive (")%string;
                     Fstr (folder req); Lit "/)..."];
            EE_task_start req;
            Printed [Lit "✓ Export task started: "; Fid (Some id)];
            Printed [Lit "  Check your Google Drive ("; Fstr (folder req);
                     Lit "/) for results"];
            Printed [Lit "  Task ID: "; Fid (Some id)]] /\
         outcome (export_to_drive uhiClasses analysisBoundary output_folder) w
         = Ok {| task_config := req; task_id := Some id |}
     | Raised e =>
         trace (export_to_drive uhiClasses analysisBoundary output_folder) w
         = [Printed [Lit (LF ++ "💾 Exporting to Google Drive (")%string;
                     Fstr (folder req); Lit "/)..."];
            EE_task_start req] /\
         outcome (export_to_drive uhiClasses analysisBoundary output_folder) w
         = Raised e
     end) /\
  Forall (fun e => is_status_query e = false)
         (trace (export_to_drive uhiClasses analysisBoundary output_folder) w) /\
  Forall (fun e => is_status_query e = false) (trace program w).
Proof.
  destruct (export_to_drive_run uhiClasses analysisBoundary output_folder w)
    as (req & _ & _ & _ & _ & Hrun).
  split; [exists req; exact Hrun |]. split; [| apply program_no_status_query].
  destruct (task_start w req); destruct Hrun as [-> _];
    repeat (apply Forall_cons; [reflexivity |]); apply Forall_nil.
Qed.




(** C9 (as amended). The export is written under the folder that the
    caller names, ['UrbanHeat'] when the caller names none, and under the
    fixed file name prefix ['uhi_classes']. *)
Theorem export_destination
  (uhiClasses : Image) (analysisBoundary : FeatureCollection)
  (output_folder : option string) (w : World) :
  exists req,
    In (EE_task_start req)
       (trace (export_to_drive uhiClasses analysisBoundary output_folder) w) /\
    (forall req',
       In (EE_task_start req')
          (trace (export_to_drive uhiClasses analysisBoundary output_folder) w) ->
       req' = req) /\
    folder req = match output_folder with Some f => f | None => "UrbanHeat" end /\
    fileNamePrefix req = "uhi_classes".
Proof.
  destruct (export_to_drive_run uhiClasses analysisBoundary output_folder w)
    as (req & _ & _ & Hfolder & Hname & Hrun).
  exists req. repeat split; try assumption.
  - destruct (task_start w req); destruct Hrun as [-> _]; simpl; auto.
  - intros req' Hin.
    destruct (task_start w req); destruct Hrun as [Ht _]; rewrite Ht in Hin;
      simpl in Hin; decompose [or] Hin; try discriminate; try contradiction;
      congruence.
Qed.

(** C9, the claim as stated fails: no caller can have the export written
    under the file name ['heatwave_2024']. *)
Lemma export_file_name_is_fixed :
  ~ exists uhiClasses analysisBoundary output_folder w req,
      In (EE_task_start req)
         (trace (export_to_drive uhiClasses analysisBoundary output_folder) w) /\
      fileNamePrefix req = "heatwave_2024".
Proof.
  intros (uhiClasses & analysisBoundary & output_folder & w & req & Hin & Hname).
  destruct (export_to_drive_run uhiClasses analysisBoundary output_folder w)
    as (req0 & _ & _ & _ & Hname0 & Hrun).
  assert (req = req0) as ->.
  { destruct (task_start w req0); destruct Hrun as [Ht _]; rewrite Ht in Hin;
      simpl in Hin; decompose [or] Hin; try discriminate; try contradiction;
      congruence. }
  rewrite Hname0 in Hname. discriminate Hname.
Qed.

(** C10. The image handed to the export is the clip of the classified
    raster to the analysis boundary, a new handle: it has no value outside
    the boundary and the values of the classified raster inside it.  The
    classified raster that the caller holds stays what it was: every image
    that the program exports or maps is the clip of a handle that is not
    itself a clip. *)
Theorem export_is_clipped_to_boundary
  (uhiClasses : Image) (analysisBoundary : FeatureCollection)
  (output_folder : option string) (w : World) :
  (exists req,
     In (EE_task_start req)
        (trace (export_to_drive uhiClasses analysisBoundary output_folder) w) /\
     image req = Image_clip uhiClasses analysisBoundary /\
     region req = analysisBoundary /\
     image req <> uhiClasses /\
     forall (s : Service) (scene : Raster) (p : Pixel),
       (inside s analysisBoundary p = false ->
        pix (denote s scene (image req)) p = None) /\
       (inside s analysisBoundary p = true ->
        pix (denote s scene (image req)) p = pix (denote s scene uhiClasses) p)) /\
  Forall clips_once (trace program w).
Proof.
  split; [| apply program_clips].
  destruct (export_to_drive_run uhiClasses analysisBoundary output_folder w)
    as (req & Himage & Hregion & _ & _ & Hrun).
  exists req. split; [| split; [exact Himage | split; [exact Hregion | split]]].
  - destruct (task_start w req); destruct Hrun as [-> _]; simpl; auto.
  - rewrite Himage. apply Image_clip_fresh.
  - intros s scene p. rewrite Himage. simpl.
    split; intros ->; reflexivity.
Qed.

(** ** The order of the calls *)

Lemma calls_app (t t' : list Event) : calls (t ++ t') = calls t ++ calls t'.
Proof.
  induction t as [| e t IH]; [reflexivity |].
  simpl. destruct (kind_of e); rewrite IH; reflexivity.
Qed.

Lemma is_prefix_app {A : Type} (l l1 l2 : list A) :
  is_prefix l l1 -> is_prefix l (l1 ++ l2).
Proof.
  intros [rest ->]. exists (rest ++ l2). symmetry; apply app_assoc.
Qed.

Lemma is_prefix_app_same {A : Type} (l l1 l2 : list A) :
  is_prefix l1 l2 -> is_prefix (l ++ l1) (l ++ l2).
Proof.
  intros [rest ->]. exists rest. apply app_assoc.
Qed.

Lemma is_prefix_nil {A : Type} (l : list A) : is_prefix l [] -> l = [].
Proof.
  intros [rest H]. symmetry in H. apply app_eq_nil in H. apply H.
Qed.

Section Order.

Context {A B : Type} (w : World).

Lemma in_order_within (m : Py A) (l : list CallKind) :
  in_order w m l -> within w m l.
Proof. intros [H _]; exact H. Qed.

Lemma in_order_ret (a : A) : in_order w (ret a) [].
Proof. split; [exists []; reflexivity | reflexivity]. Qed.

Lemma in_order_raise (e : PyExc) : in_order w (@raise A e) [].
Proof. split; [exists []; reflexivity | reflexivity]. Qed.

Lemma in_order_call (e : Event) (answer : World -> Outcome A) (k : CallKind) :
  kind_of e = Some k -> in_order w (call e answer) [k].
Proof.
  intros H. unfold in_order, trace, call; simpl. rewrite H.
  split; [exists []; reflexivity | reflexivity].
Qed.

Lemma in_order_bind (m : Py A) (k : A -> Py B) (l1 l2 : list CallKind) :
  in_order w m l1 -> (forall a, in_order w (k a) l2) ->
  in_order w (bind m k) (l1 ++ l2).
Proof.
  intros [Hp Hr] Hk. unfold in_order.
  rewrite trace_bind, outcome_bind, calls_app.
  destruct (outcome m w) as [a | e].
  - rewrite (Hr a eq_refl). destruct (Hk a) as [Hp' Hr']. split.
    + apply is_prefix_app_same, Hp'.
    + intros b Hb. rewrite (Hr' b Hb). reflexivity.
  - simpl. rewrite app_nil_r. split; [apply is_prefix_app, Hp | discriminate].
Qed.

Lemma within_bind (m : Py A) (k : A -> Py B) (l1 l2 : list CallKind) :
  in_order w m l1 -> (forall a, within w (k a) l2) ->
  within w (bind m k) (l1 ++ l2).
Proof.
  intros [Hp Hr] Hk. unfold within.
  rewrite trace_bind, calls_app.
  destruct (outcome m w) as [a | e].
  - rewrite (Hr a eq_refl). apply is_prefix_app_same, Hk.
  - simpl. rewrite app_nil_r. apply is_prefix_app, Hp.
Qed.

Lemma within_bind_quiet (m : Py A) (k : A -> Py B) (l : list CallKind) :
  within w m l -> (forall a, in_order w (k a) []) ->
  within w (bind m k) l.
Proof.
  intros Hm Hk. unfold within.
  rewrite trace_bind, calls_app.
  destruct (outcome m w) as [a | e]; simpl.
  - destruct (Hk a) as [Hp _]. rewrite (is_prefix_nil _ Hp), app_nil_r. exact Hm.
  - rewrite app_nil_r. exact Hm.
Qed.

Lemma within_try (body : Py A) (handler : PyExc -> Py A) (l : list CallKind) :
  within w body l -> (forall e, in_order w (handler e) []) ->
  within w (try_except_Exception body handler) l.
Proof.
  unfold within, in_order, trace, try_except_Exception.
  intros Hb Hh.
  destruct (body w) as [t [a | [msg | | code]]]; simpl in *; try exact Hb.
  specialize (Hh (Exception_ msg)).
  destruct (handler (Exception_ msg) w) as [t' r]; simpl in *.
  destruct Hh as [Hp _]. rewrite calls_app, (is_prefix_nil _ Hp), app_nil_r.
  exact Hb.
Qed.

End Order.

Lemma in_order_print (w : World) (line : list Piece) : in_order w (print line) [].
Proof. split; [exists []; reflexivity | reflexivity]. Qed.

Lemma in_order_getitem (w : World) (l : list Q) (i : nat) :
  in_order w (getitem l i) [].
Proof.
  unfold getitem. destruct (nth_error l i);
    [apply in_order_ret | apply in_order_raise].
Qed.

Lemma in_order_Point (w : World) (coords : list Q) :
  in_order w (ee_Geometry_Point coords) [].
Proof.
  unfold ee_Geometry_Point. destruct (Nat.eqb (List.length coords) 2);
    [apply in_order_ret | apply in_order_raise].
Qed.

Lemma in_order_reduceRegion (w : World) (i : Image) (c : ReduceRegionCall)
  (index : Z) :
  in_order w (Image_reduceRegion_values_get i c index) [].
Proof. destruct c; [apply in_order_raise | apply in_order_ret]. Qed.

Lemma within_bind_stops {A B : Type} (w : World) (m : Py A) (k : A -> Py B)
  (l : list CallKind) :
  within w m l -> (forall a, outcome m w <> Ok a) -> within w (bind m k) l.
Proof.
  intros Hm Hno. unfold within. rewrite trace_bind.
  destruct (outcome m w) as [a | e]; [destruct (Hno a eq_refl) |].
  rewrite app_nil_r. exact Hm.
Qed.

(** Decomposes a script function whose calls are all in the open. *)
Ltac order_steps :=
  repeat first
    [ eapply in_order_bind; [| intros ?]
    | apply in_order_print
    | eapply in_order_call; reflexivity
    | apply in_order_ret
    | apply in_order_raise
    | apply in_order_getitem
    | apply in_order_Point
    | apply in_order_reduceRegion
    | match goal with
      | |- in_order _ (let (_, _) := ?a in _) _ => destruct a
      end ].

Lemma within_eq {A : Type} (w : World) (m : Py A) (l l' : list CallKind) :
  within w m l -> l = l' -> within w m l'.
Proof. intros H <-; exact H. Qed.

Lemma in_order_eq {A : Type} (w : World) (m : Py A) (l l' : list CallKind) :
  in_order w m l -> l = l' -> in_order w m l'.
Proof. intros H <-; exact H. Qed.

Lemma initialize_earth_engine_order (w : World) :
  in_order w initialize_earth_engine [K_Initialize].
Proof.
  unfold in_order, initialize_earth_engine, trace, outcome, try_except_Exception,
    bind, call, print, exit, raise.
  destruct (Initialize_result w) as [[] | [msg | | code]]; simpl;
    (split; [exists []; reflexivity | first [reflexivity | discriminate]]).
Qed.

Lemma visualize_interactive_order (w : World) (medianThermal uhiClasses : Image)
  (analysisBoundary : FeatureCollection) (centralCoord : list Q) :
  within w (visualize_interactive medianThermal uhiClasses analysisBoundary
              centralCoord)
         [K_Map; K_addLayer; K_addLayer; K_addLayerControl; K_save].
Proof.
  unfold visualize_interactive. eapply within_eq.
  - eapply within_bind; [apply in_order_print | intros _].
    apply within_try; [| intros e; eapply in_order_eq; [order_steps | reflexivity]].
    apply in_order_within. order_steps.
  - reflexivity.
Qed.

Lemma program_order (w : World) :
  within w program
    [K_Initialize; K_size_getInfo; K_number_getInfo; K_task_start;
     K_Map; K_addLayer; K_addLayer; K_addLayerControl; K_save].
Proof.
  unfold program, main. eapply within_eq.
  - repeat
      lazymatch goal with
      | |- within _ (let (_, _) := ?a in _) _ => destruct a
      | |- within _ (bind (visualize_interactive _ _ _ _) _) _ =>
          apply within_bind_quiet;
          [ apply visualize_interactive_order
          | intros _; eapply in_order_eq; [order_steps | reflexivity] ]
      | |- within _ (bind initialize_earth_engine _) _ =>
          eapply within_bind; [apply initialize_earth_engine_order | intros ?]
      | |- within _ (bind _ _) _ =>
          eapply within_bind; [unfold_script; order_steps | intros ?]
      end.
  - reflexivity.
Qed.

(** The aggregation step as it is written: one line, and the client's
    refusal. *)
Lemma compute_lst_run (w : World) (landsatThermal : ImageCollection)
  (analysisBoundary : FeatureCollection) :
  compute_lst landsatThermal analysisBoundary w
  = ([compute_lst_banner], Raised (Exception_ reducer_cast_error)).
Proof. reflexivity. Qed.

Lemma program_order_short (w : World) :
  within w program [K_Initialize; K_size_getInfo].
Proof.
  unfold program, main. eapply within_eq.
  - repeat
      lazymatch goal with
      | |- within _ (let (_, _) := ?a in _) _ => destruct a
      | |- within _ (bind (compute_lst ?lt ?ab) _) _ =>
          apply within_bind_stops;
          [ exists []; unfold trace; rewrite compute_lst_run; reflexivity
          | intros ?; unfold outcome; rewrite compute_lst_run; discriminate ]
      | |- within _ (bind initialize_earth_engine _) _ =>
          eapply within_bind; [apply initialize_earth_engine_order | intros ?]
      | |- within _ (bind _ _) _ =>
          eapply within_bind; [unfold_script; order_steps | intros ?]
      end.
  - reflexivity.
Qed.

Lemma initialize_earth_engine_calls (w : World) :
  calls (trace initialize_earth_engine w) = [K_Initialize].
Proof.
  unfold initialize_earth_engine, trace, try_except_Exception, bind, call, print,
    exit, raise.
  destruct (Initialize_result w) as [[] | [msg | | code]]; reflexivity.
Qed.

(** X1. Every run of the program issues its library calls in one fixed
    order, each at most once: the initialisation, which every run begins
    with, the request for the number of scenes, the request for the mean,
    the start of the export, then the map, its two layers, the layer
    control and the save; a run stops somewhere along this list. *)
Theorem program_calls_in_order (w : World) :
  is_prefix (calls (trace program w))
    [K_Initialize; K_size_getInfo; K_number_getInfo; K_task_start;
     K_Map; K_addLayer; K_addLayer; K_addLayerControl; K_save] /\
  exists rest, calls (trace program w) = K_Initialize :: rest.
Proof.
  split; [apply program_order |].
  unfold program, main.
  do 4 (erewrite trace_bind_run by reflexivity; cbv beta).
  rewrite trace_bind, !calls_app, initialize_earth_engine_calls.
  eexists; reflexivity.
Qed.

(** ** Failures that end the run *)

Lemma fatal_app (w : World) (e : PyExc) (t0 t : list Event) :
  fatal w e t -> fatal w e (t0 ++ t).
Proof.
  intros [(t1 & call & -> & H) | [H | (He & t1 & ->)]].
  - left. exists (t0 ++ t1), call. split; [apply app_assoc | exact H].
  - right; left; exact H.
  - right; right. split; [exact He |]. exists (t0 ++ t1). apply app_assoc.
Qed.

Section Fatal.

Context {A B : Type} (w : World).

Lemma fails_fatally_ret (a : A) : fails_fatally w (ret a).
Proof. intros e; discriminate. Qed.

Lemma fails_fatally_call (ev : Event) (answer : World -> Outcome A) :
  (forall e, answer w = Raised e -> raised_by w ev e) ->
  fails_fatally w (call ev answer).
Proof.
  intros H e He. left. exists [], ev. split; [reflexivity | apply H, He].
Qed.

Lemma fails_fatally_bind (m : Py A) (k : A -> Py B) :
  fails_fatally w m -> (forall a, fails_fatally w (k a)) ->
  fails_fatally w (bind m k).
Proof.
  intros Hm Hk e. rewrite outcome_bind, trace_bind.
  destruct (outcome m w) as [a | e'] eqn:E.
  - intros He. apply fatal_app, Hk, He.
  - intros [= <-]. rewrite app_nil_r. apply Hm, E.
Qed.

End Fatal.

Lemma fails_fatally_print (w : World) (line : list Piece) :
  fails_fatally w (print line).
Proof. intros e; discriminate. Qed.

Lemma initialize_earth_engine_fails_fatally (w : World) :
  fails_fatally w initialize_earth_engine.
Proof.
  intros e.
  unfold initialize_earth_engine, fatal, trace, outcome, try_except_Exception,
    bind, call, print, exit, raise.
  destruct (Initialize_result w) as [[] | [msg | | code]] eqn:E; simpl;
    try discriminate; intros [= <-].
  - right; left. split; [reflexivity | exists msg; reflexivity].
  - left. exists [], EE_Initialize. split; [reflexivity | exact E].
  - left. exists [], EE_Initialize. split; [reflexivity | exact E].
Qed.

(** Closes a run of the visualisation that a call has left by raising. *)
Ltac left_at_last :=
  let e := fresh "e" in
  intros e; simpl;
  first
    [ discriminate
    | intros [= <-];
      match goal with
      | R : ?x = Raised ?e' |- _ =>
          match x with
          | geemap_Map _ ?c ?z =>
              exists (Geemap_Map c z)
          | geemap_addLayer _ ?i ?v ?n =>
              exists (Geemap_addLayer i v n)
          | geemap_addLayerControl _ =>
              exists Geemap_addLayerControl
          | geemap_save _ ?f =>
              exists (Geemap_save f)
          end;
          split; [| exact R]
      end;
      match goal with
      | |- exists t0, ?t = t0 ++ [_] => exists (removelast t); reflexivity
      end ].

Lemma visualize_interactive_fails_fatally (w : World)
  (medianThermal uhiClasses : Image) (analysisBoundary : FeatureCollection)
  (centralCoord : list Q) (e : PyExc) :
  outcome (visualize_interactive medianThermal uhiClasses analysisBoundary
             centralCoord) w = Raised e ->
  exists call,
    (exists t0,
       trace (visualize_interactive medianThermal uhiClasses analysisBoundary
                centralCoord) w = t0 ++ [call]) /\
    raised_by w call e.
Proof.
  revert e.
  unfold visualize_interactive, trace, outcome, bind, call, print, ret,
    try_except_Exception, getitem, raise.
  destruct (nth_error centralCoord 1) as [c1 |];
    [destruct (nth_error centralCoord 0) as [c0 |] |]; cbn -[LF].
  2, 3: left_at_last.
  geemap_call w; [| left_at_last ..].
  geemap_call w; [| left_at_last ..].
  geemap_call w; [| left_at_last ..].
  geemap_call w; [| left_at_last ..].
  geemap_call w; left_at_last.
Qed.

Lemma get_roi_fails_fatally (w : World) (c0 c1 : Q)
  (adminRegions : FeatureCollection) :
  fails_fatally w (get_roi [c0; c1] adminRegions).
Proof. intros e; discriminate. Qed.

Lemma compute_lst_fails_fatally (w : World) (landsatThermal : ImageCollection)
  (analysisBoundary : FeatureCollection) :
  fails_fatally w (compute_lst landsatThermal analysisBoundary).
Proof.
  intros e. unfold outcome, trace. rewrite compute_lst_run. intros [= <-].
  right; right. split; [reflexivity | exists []; reflexivity].
Qed.

Lemma program_fails_fatally (w : World) : fails_fatally w program.
Proof.
  unfold program, main.
  repeat
    lazymatch goal with
    | |- fails_fatally _ (let (_, _) := ?a in _) => destruct a
    | |- fails_fatally _ (bind initialize_earth_engine _) =>
        apply fails_fatally_bind;
        [apply initialize_earth_engine_fails_fatally | intros ?]
    | |- fails_fatally _ (bind (get_roi _ _) _) =>
        apply fails_fatally_bind; [apply get_roi_fails_fatally | intros ?]
    | |- fails_fatally _ (bind (compute_lst _ _) _) =>
        apply fails_fatally_bind; [apply compute_lst_fails_fatally | intros ?]
    | |- fails_fatally _ (bind (visualize_interactive _ _ _ _) _) =>
        apply fails_fatally_bind;
        [ intros e He;
          destruct (visualize_interactive_fails_fatally _ _ _ _ _ _ He)
            as (call & [t0 Ht] & Hr);
          left; exists t0, call; split; assumption
        | intros ? ]
    | |- fails_fatally _ (bind _ _) =>
        apply fails_fatally_bind; [| intros ?]
    | |- fails_fatally _ (print _) => apply fails_fatally_print
    | |- fails_fatally _ (ret _) => apply fails_fatally_ret
    | |- fails_fatally _ (call _ _) =>
        apply fails_fatally_call; intros ? He; exact He
    | |- fails_fatally _ _ => progress unfold_script
    end.
Qed.

(** X2. A run of the program that ends with an exception came to it in one
    of three ways: the last thing the process did was a library call that
    raised this exception, nothing being printed or called after it; or
    the initialisation raised an instance of [Exception] and the exception
    is the [SystemExit(1)] of the handler; or the exception is the client's
    refusal of the parameters of the regional mean, and the last thing the
    process did was to print the first line of the aggregation step. *)
Theorem program_failure_is_immediate (w : World) (e : PyExc) :
  outcome program w = Raised e ->
  (exists t0 call, trace program w = t0 ++ [call] /\ raised_by w call e) \/
  (e = SystemExit_ 1 /\ exists msg, Initialize_result w = Raised (Exception_ msg)) \/
  (e = Exception_ reducer_cast_error /\
   exists t0, trace program w = t0 ++ [compute_lst_banner]).
Proof. apply program_fails_fatally. Qed.

Lemma program_failure_is_immediate_witness :
  outcome program world_count_fails = Raised (Exception_ "Computation timed out.") /\
  ((exists t0 call,
      trace program world_count_fails = t0 ++ [call] /\
      raised_by world_count_fails call (Exception_ "Computation timed out.")) \/
   (Exception_ "Computation timed out." = SystemExit_ 1 /\
    exists msg, Initialize_result world_count_fails = Raised (Exception_ msg)) \/
   (Exception_ "Computation timed out." = Exception_ reducer_cast_error /\
    exists t0, trace program world_count_fails = t0 ++ [compute_lst_banner])).
Proof.
  split; [vm_compute; reflexivity |].
  apply (program_failure_is_immediate world_count_fails).
  vm_compute; reflexivity.
Defined.

(** ** Where the run stops *)

(** X3. No run of the program returns normally: the aggregation step is
    always left by an exception, so a run issues at most the
    initialisation and the request for the number of scenes, in this
    order, and nothing but these two calls and printed lines. *)
Theorem program_never_returns (w : World) :
  (forall a, outcome program w <> Ok a) /\
  is_prefix (calls (trace program w)) [K_Initialize; K_size_getInfo] /\
  Forall precedes_the_mean (trace program w).
Proof.
  destruct (program_stops w) as [Ht Ho].
  split; [intros a Ha; exact (Ho a Ha) |].
  split; [apply program_order_short | exact Ht].
Qed.

(** X16. When the initialisation succeeds and the service answers the
    request for the number of scenes, the run ends with the exception the
    client raises on the parameters of the regional mean: the last thing
    the process did was to print the first line of the aggregation step,
    and the exit status is 1. *)
Theorem program_stops_in_compute_lst (w : World) :
  Initialize_result w = Ok tt ->
  (forall c, exists n, size_getInfo w c = Ok n) ->
  outcome program w = Raised (Exception_ reducer_cast_error) /\
  last (trace program w) EE_Initialize = compute_lst_banner /\
  exit_status (outcome program w) = 1%Z.
Proof.
  intros Hinit Hsize.
  destruct (program_stops w) as [Ht Ho].
  assert (He : outcome program w = Raised (Exception_ reducer_cast_error) /\
               last (trace program w) EE_Initialize = compute_lst_banner).
  { destruct (outcome program w) as [a | e] eqn:E; [destruct (Ho a eq_refl) |].
    destruct (program_fails_fatally w e E)
      as [(t0 & call & Htr & Hr) | [(_ & msg & Hmsg) | (-> & t0 & Htr)]].
    - exfalso. rewrite Forall_forall in Ht.
      assert (Hc : precedes_the_mean call).
      { apply Ht. rewrite Htr. apply in_or_app. right. left. reflexivity. }
      destruct call; simpl in Hc, Hr; try contradiction.
      + congruence.
      + destruct (Hsize c) as [n Hn]. congruence.
    - congruence.
    - split; [reflexivity |]. rewrite Htr. apply last_last. }
  destruct He as [He Hl]. rewrite He. repeat split. exact Hl.
Qed.

Lemma program_stops_in_compute_lst_witness :
  Initialize_result world_ok = Ok tt /\
  (forall c, exists n, size_getInfo world_ok c = Ok n) /\
  outcome program world_ok = Raised (Exception_ reducer_cast_error) /\
  last (trace program world_ok) EE_Initialize = compute_lst_banner /\
  exit_status (outcome program world_ok) = 1%Z.
Proof.
  split; [reflexivity |]. split; [intros c; eexists; reflexivity |].
  apply (program_stops_in_compute_lst world_ok);
    [reflexivity | intros c; eexists; reflexivity].
Defined.

(** ** The classes, pixel by pixel *)

Section Classes.

Variables (s : Service) (scene : Raster) (uhiIndex dynamicUrban : Image).
Variable w : World.

(** On a pixel that the mask selects, with the index [x]. *)
Lemma classified_pixel (p : Pixel) (x m : Q) :
  pix (denote s scene uhiIndex) p = Some x ->
  pix (denote s scene dynamicUrban) p = Some m ->
  nonzero m = true ->
  exists uhiClasses,
    outcome (classify_uhi_intensity uhiIndex dynamicUrban) w = Ok uhiClasses /\
    ((x < 0 /\ pix (denote s scene uhiClasses) p = Some 0) \/
     exists k, in_band k x /\
               pix (denote s scene uhiClasses) p = Some (class_value k)).
Proof.
  intros Hx Hm Hnz.
  eexists; split; [reflexivity |].
  simpl. rewrite Hx, Hm, Hnz. simpl.
  destruct (Qle_bool 0 x) eqn:H0;
    destruct (Qle_bool 0.005 x) eqn:H1;
    destruct (Qle_bool 0.010 x) eqn:H2;
    destruct (Qle_bool 0.015 x) eqn:H3;
    destruct (Qle_bool 0.020 x) eqn:H4;
    rewrite ?Qle_bool_iff, ?Qle_bool_false in *;
    try (exfalso; lra); simpl.
  - right; exists Extreme; split; [simpl; lra | reflexivity].
  - right; exists VeryStrong; split; [simpl; lra | reflexivity].
  - right; exists Strong; split; [simpl; lra | reflexivity].
  - right; exists Moderate; split; [simpl; lra | reflexivity].
  - right; exists Mild; split; [simpl; lra | reflexivity].
  - left; split; [lra | reflexivity].
Qed.

(** On a pixel that the mask selects, where the index is masked. *)
Lemma classified_unmeasured (p : Pixel) (m : Q) :
  pix (denote s scene uhiIndex) p = None ->
  pix (denote s scene dynamicUrban) p = Some m ->
  nonzero m = true ->
  exists uhiClasses,
    outcome (classify_uhi_intensity uhiIndex dynamicUrban) w = Ok uhiClasses /\
    pix (denote s scene uhiClasses) p = Some 0.
Proof.
  intros Hx Hm Hnz.
  eexists; split; [reflexivity |].
  simpl. rewrite Hx, Hm, Hnz. reflexivity.
Qed.

(** On a pixel that the mask does not select. *)
Lemma classified_outside (p : Pixel) :
  (forall m, pix (denote s scene dynamicUrban) p = Some m -> nonzero m = false) ->
  exists uhiClasses,
    outcome (classify_uhi_intensity uhiIndex dynamicUrban) w = Ok uhiClasses /\
    pix (denote s scene uhiClasses) p = None.
Proof.
  intros H.
  eexists; split; [reflexivity |].
  cbn [denote]. rewrite R_updateMask_pix.
  destruct (pix (denote s scene dynamicUrban) p) as [m |]; [| reflexivity].
  rewrite (H m eq_refl). reflexivity.
Qed.

End Classes.

Lemma classify_uhi_intensity_returns (uhiIndex dynamicUrban : Image) (w : World)
  (a b : Image) :
  outcome (classify_uhi_intensity uhiIndex dynamicUrban) w = Ok a ->
  outcome (classify_uhi_intensity uhiIndex dynamicUrban) w = Ok b ->
  a = b.
Proof. congruence. Qed.

(** X4. Every value of the classified raster is one of 0, 1, 2, 3, 4, 5:
    whatever the index and the mask hold at a pixel, the classifier leaves
    there no value or one of these six. *)
Theorem classify_uhi_intensity_range
  (s : Service) (scene : Raster) (uhiIndex dynamicUrban : Image) (w : World)
  (uhiClasses : Image) (p : Pixel) (v : Q) :
  outcome (classify_uhi_intensity uhiIndex dynamicUrban) w = Ok uhiClasses ->
  pix (denote s scene uhiClasses) p = Some v ->
  In v [0; 1; 2; 3; 4; 5].
Proof.
  intros Hout Hv.
  destruct (pix (denote s scene dynamicUrban) p) as [m |] eqn:Hm.
  2: { destruct (classified_outside s scene uhiIndex dynamicUrban w p)
         as (uc & Huc & Hp); [rewrite Hm; discriminate |].
       rewrite (classify_uhi_intensity_returns _ _ _ _ _ Hout Huc) in Hv.
       congruence. }
  destruct (nonzero m) eqn:Hnz.
  2: { destruct (classified_outside s scene uhiIndex dynamicUrban w p)
         as (uc & Huc & Hp); [rewrite Hm; intros m' [= <-]; exact Hnz |].
       rewrite (classify_uhi_intensity_returns _ _ _ _ _ Hout Huc) in Hv.
       congruence. }
  destruct (pix (denote s scene uhiIndex) p) as [x |] eqn:Hx.
  - destruct (classified_pixel s scene uhiIndex dynamicUrban w p x m Hx Hm Hnz)
      as (uc & Huc & Hp).
    rewrite (classify_uhi_intensity_returns _ _ _ _ _ Hout Huc) in Hv.
    destruct Hp as [[_ Hp] | (k & _ & Hp)]; rewrite Hp in Hv;
      injection Hv as <-; [| destruct k]; simpl; pick.
  - destruct (classified_unmeasured s scene uhiIndex dynamicUrban w p m Hx Hm Hnz)
      as (uc & Huc & Hp).
    rewrite (classify_uhi_intensity_returns _ _ _ _ _ Hout Huc) in Hv.
    rewrite Hp in Hv. injection Hv as <-. simpl; pick.
Qed.

Lemma classify_uhi_intensity_range_witness :
  outcome (classify_uhi_intensity image_arg (Image_constant 1)) world_ok
  = Ok (Image_updateMask
          (Image_where
             (Image_where
                (Image_where
                   (Image_where
                      (Image_where (Image_constant 0)
                         (Image_And (Image_gte image_arg 0) (Image_lt image_arg 0.005)) 1)
                      (Image_And (Image_gte image_arg 0.005) (Image_lt image_arg 0.010)) 2)
                   (Image_And (Image_gte image_arg 0.010) (Image_lt image_arg 0.015)) 3)
                (Image_And (Image_gte image_arg 0.015) (Image_lt image_arg 0.020)) 4)
             (Image_gte image_arg 0.020) 5)
          (Image_constant 1)) /\
  In 2 [0; 1; 2; 3; 4; 5].
Proof.
  split; [reflexivity |].
  apply (classify_uhi_intensity_range sample_service sample_index image_arg
           (Image_constant 1) world_ok _ (0, 0)%Z 2 eq_refl).
  reflexivity.
Defined.

(** X5. The classifier is monotone: of two pixels that the urban mask
    selects, the one with the larger index has the larger or the same
    class. *)
Theorem classify_uhi_intensity_monotone
  (s : Service) (scene : Raster) (uhiIndex dynamicUrban : Image) (w : World)
  (p q : Pixel) (x y mp mq : Q) :
  pix (denote s scene uhiIndex) p = Some x ->
  pix (denote s scene uhiIndex) q = Some y ->
  pix (denote s scene dynamicUrban) p = Some mp -> nonzero mp = true ->
  pix (denote s scene dynamicUrban) q = Some mq -> nonzero mq = true ->
  x <= y ->
  exists uhiClasses cp cq,
    outcome (classify_uhi_intensity uhiIndex dynamicUrban) w = Ok uhiClasses /\
    pix (denote s scene uhiClasses) p = Some cp /\
    pix (denote s scene uhiClasses) q = Some cq /\
    cp <= cq.
Proof.
  intros Hx Hy Hmp Hnp Hmq Hnq Hxy.
  destruct (classified_pixel s scene uhiIndex dynamicUrban w p x mp Hx Hmp Hnp)
    as (uc & Huc & Hp).
  destruct (classified_pixel s scene uhiIndex dynamicUrban w q y mq Hy Hmq Hnq)
    as (uc' & Huc' & Hq).
  rewrite <- (classify_uhi_intensity_returns _ _ _ _ _ Huc Huc') in Hq.
  destruct Hp as [[Hneg Hp] | (k & Hk & Hp)];
    destruct Hq as [[Hneg' Hq] | (k' & Hk' & Hq)].
  - exists uc, 0, 0. repeat split; try assumption. lra.
  - exists uc, 0, (class_value k'). repeat split; try assumption.
    destruct k'; simpl; lra.
  - exfalso. destruct k; simpl in Hk; lra.
  - exists uc, (class_value k), (class_value k'). repeat split; try assumption.
    destruct k, k'; simpl in *; lra.
Qed.

Lemma classify_uhi_intensity_monotone_witness :
  0.007 <= 0.007 /\
  exists uhiClasses cp cq,
    outcome (classify_uhi_intensity image_arg (Image_constant 1)) world_ok
    = Ok uhiClasses /\
    pix (denote sample_service sample_index uhiClasses) (0, 0)%Z = Some cp /\
    pix (denote sample_service sample_index uhiClasses) (1, 1)%Z = Some cq /\
    cp <= cq.
Proof.
  split; [discriminate |].
  apply (classify_uhi_intensity_monotone sample_service sample_index image_arg
           (Image_constant 1) world_ok (0, 0)%Z (1, 1)%Z 0.007 0.007 1 1);
    first [reflexivity | discriminate].
Defined.

(** X6. A pixel that the urban mask selects and where the index has no
    value, the median temperature being masked there, is not masked in the
    classified raster: it holds the value 0. *)
Theorem classify_uhi_intensity_unmeasured
  (s : Service) (scene : Raster) (uhiIndex dynamicUrban : Image) (w : World)
  (p : Pixel) (m : Q) :
  pix (denote s scene uhiIndex) p = None ->
  pix (denote s scene dynamicUrban) p = Some m ->
  nonzero m = true ->
  exists uhiClasses,
    outcome (classify_uhi_intensity uhiIndex dynamicUrban) w = Ok uhiClasses /\
    pix (denote s scene uhiClasses) p = Some 0.
Proof. apply classified_unmeasured. Qed.

Lemma classify_uhi_intensity_unmeasured_witness :
  pix (denote sample_service sample_scene image_arg) (1, 0)%Z = None /\
  exists uhiClasses,
    outcome (classify_uhi_intensity image_arg (Image_constant 1)) world_ok
    = Ok uhiClasses /\
    pix (denote sample_service sample_scene uhiClasses) (1, 0)%Z = Some 0.
Proof.
  split; [reflexivity |].
  apply (classify_uhi_intensity_unmeasured sample_service sample_scene image_arg
           (Image_constant 1) world_ok (1, 0)%Z 1); reflexivity.
Defined.

Lemma built_area_footprint
  (s : Service) (scene : Raster) (analysisBoundary : FeatureCollection)
  (startDate endDate : string) (uhiIndex : Image) (w : World) (p : Pixel) :
  exists labels dynamicUrban uhiClasses,
    outcome (get_urban_mask analysisBoundary startDate endDate) w
    = Ok dynamicUrban /\
    dynamicUrban = Image_eq (IC_mode labels) 6 /\
    outcome (classify_uhi_intensity uhiIndex dynamicUrban) w = Ok uhiClasses /\
    ((exists v, pix (denote s scene uhiClasses) p = Some v) <->
     (exists label,
        pix (composite s Mode (denote_collection s scene labels)) p = Some label /\
        label == 6)).
Proof.
  eexists _, _, _. split; [reflexivity |]. split; [reflexivity |].
  split; [reflexivity |].
  match goal with
  | |- (exists v, pix (denote s scene (Image_updateMask ?c ?d)) p = Some v) <-> _ =>
      set (dynamicUrban := d); set (uhiClasses := Image_updateMask c dynamicUrban)
  end.
  assert (Huc : outcome (classify_uhi_intensity uhiIndex dynamicUrban) w
                = Ok uhiClasses) by reflexivity.
  clearbody uhiClasses.
  assert (Hdu : pix (denote s scene dynamicUrban) p
                = option_map (fun label => of_bool (Qeq_bool label 6))
                    (pix (composite s Mode
                            (denote_collection s scene
                               (IC_filter
                                  (IC_filterBounds
                                     (IC_filterDate
                                        (IC_select
                                           (ImageCollection_id "GOOGLE/DYNAMICWORLD/V1")
                                           "label")
                                        startDate endDate)
                                     analysisBoundary)
                                  (Filter_calendarRange 5 9 "month")))) p))
    by reflexivity.
  clearbody dynamicUrban.
  destruct (pix (composite s Mode _) p) as [label |]; simpl in Hdu.
  - destruct (Qeq_bool label 6) eqn:E.
    + split.
      * intros _. exists label; split; [reflexivity | apply Qeq_bool_iff, E].
      * intros _.
        destruct (pix (denote s scene uhiIndex) p) as [x |] eqn:Hx.
        -- destruct (classified_pixel s scene uhiIndex dynamicUrban w p x _
                       Hx Hdu eq_refl) as (uc & Huc' & Hp).
           rewrite (classify_uhi_intensity_returns _ _ _ _ _ Huc Huc').
           destruct Hp as [[_ Hp] | (k & _ & Hp)]; eexists; exact Hp.
        -- destruct (classified_unmeasured s scene uhiIndex dynamicUrban w p _
                       Hx Hdu eq_refl) as (uc & Huc' & Hp).
           rewrite (classify_uhi_intensity_returns _ _ _ _ _ Huc Huc').
           eexists; exact Hp.
    + destruct (classified_outside s scene uhiIndex dynamicUrban w p)
        as (uc & Huc' & Hp).
      { rewrite Hdu. intros m [= <-]. reflexivity. }
      rewrite (classify_uhi_intensity_returns _ _ _ _ _ Huc Huc'), Hp.
      split.
      * intros [v Hv]; discriminate Hv.
      * intros (label' & [= <-] & H). apply Qeq_bool_iff in H. congruence.
  - destruct (classified_outside s scene uhiIndex dynamicUrban w p)
      as (uc & Huc' & Hp).
    { rewrite Hdu. discriminate. }
    rewrite (classify_uhi_intensity_returns _ _ _ _ _ Huc Huc'), Hp.
    split.
    + intros [v Hv]; discriminate Hv.
    + intros (label & H & _); discriminate H.
Qed.


(** ** From temperature to class *)

Lemma Qle_div_iff (a x m : Q) : 0 < m -> (a <= x / m <-> a * m <= x).
Proof.
  intros Hm. split; intros H.
  - assert (E : x == x / m * m) by (field; lra).
    rewrite E. apply Qmult_le_compat_r; lra.
  - apply Qle_shift_div_l; assumption.
Qed.

Lemma Qlt_div_iff (a x m : Q) : 0 < m -> (x / m < a <-> x < a * m).
Proof.
  intros Hm. split; intros H; apply Qnot_le_lt; intros Hc.
  - apply (Qle_div_iff a x m Hm) in Hc. exact (Qlt_not_le _ _ H Hc).
  - apply (Qle_div_iff a x m Hm) in Hc. exact (Qlt_not_le _ _ H Hc).
Qed.

Lemma uhi_index_pixel (s : Service) (scene : Raster) (medianThermal : Image)
  (meanLST : Q) (w : World) (p : Pixel) :
  ~ meanLST == 0 ->
  exists uhiIndex,
    outcome (calculate_uhi_index medianThermal meanLST) w = Ok uhiIndex /\
    pix (denote s scene uhiIndex) p
    = option_map (fun t => (t - meanLST) / meanLST)
                 (pix (denote s scene medianThermal) p).
Proof.
  intros Hmean. eexists; split; [reflexivity |].
  cbn [denote R_rename pix R_expression].
  change (parse "(TIR - MEAN) / MEAN")
    with (Some (E_binop Div (E_binop Sub (E_var "TIR") (E_var "MEAN"))
                        (E_var "MEAN"))).
  cbn [eval denote_vars].
  change (String.eqb "TIR" "TIR") with true.
  change (String.eqb "MEAN" "TIR") with false.
  change (String.eqb "MEAN" "MEAN") with true.
  cbn iota.
  destruct (pix (denote s scene medianThermal) p) as [t |]; [| reflexivity].
  simpl. destruct (Qeq_bool meanLST 0) eqn:Hz; [| reflexivity].
  apply Qeq_bool_iff in Hz. contradiction.
Qed.

(** X8. With a positive mean [M], the index and the classifier together
    sort an urban pixel by its median temperature [t]: no class (0) below
    [M], then classes 1 to 4 in steps of half a percent of [M], and
    class 5 from [1.02 * M] on. *)
Theorem class_of_temperature
  (s : Service) (scene : Raster) (medianThermal dynamicUrban : Image)
  (meanLST : Q) (w : World) (p : Pixel) (t m : Q) :
  0 < meanLST ->
  pix (denote s scene medianThermal) p = Some t ->
  pix (denote s scene dynamicUrban) p = Some m ->
  nonzero m = true ->
  exists uhiIndex uhiClasses c,
    outcome (calculate_uhi_index medianThermal meanLST) w = Ok uhiIndex /\
    outcome (classify_uhi_intensity uhiIndex dynamicUrban) w = Ok uhiClasses /\
    pix (denote s scene uhiClasses) p = Some c /\
    (c = 0 <-> t < meanLST) /\
    (c = 1 <-> meanLST <= t /\ t < 1.005 * meanLST) /\
    (c = 2 <-> 1.005 * meanLST <= t /\ t < 1.010 * meanLST) /\
    (c = 3 <-> 1.010 * meanLST <= t /\ t < 1.015 * meanLST) /\
    (c = 4 <-> 1.015 * meanLST <= t /\ t < 1.020 * meanLST) /\
    (c = 5 <-> 1.020 * meanLST <= t).
Proof.
  intros HM Ht Hm Hnz.
  destruct (uhi_index_pixel s scene medianThermal meanLST w p)
    as (uhiIndex & Hui & Hx); [lra |].
  rewrite Ht in Hx. simpl in Hx.
  destruct (classified_pixel s scene uhiIndex dynamicUrban w p _ m Hx Hm Hnz)
    as (uhiClasses & Huc & Hcls).
  pose proof (Qle_div_iff 0 (t - meanLST) meanLST HM) as U0.
  pose proof (Qle_div_iff 0.005 (t - meanLST) meanLST HM) as U1.
  pose proof (Qle_div_iff 0.010 (t - meanLST) meanLST HM) as U2.
  pose proof (Qle_div_iff 0.015 (t - meanLST) meanLST HM) as U3.
  pose proof (Qle_div_iff 0.020 (t - meanLST) meanLST HM) as U4.
  pose proof (Qlt_div_iff 0 (t - meanLST) meanLST HM) as T0.
  pose proof (Qlt_div_iff 0.005 (t - meanLST) meanLST HM) as T1.
  pose proof (Qlt_div_iff 0.010 (t - meanLST) meanLST HM) as T2.
  pose proof (Qlt_div_iff 0.015 (t - meanLST) meanLST HM) as T3.
  pose proof (Qlt_div_iff 0.020 (t - meanLST) meanLST HM) as T4.
  set (x := (t - meanLST) / meanLST) in *. clearbody x.
  destruct Hcls as [[Hneg Hc] | (k & Hk & Hc)].
  - exists uhiIndex, uhiClasses, 0.
    split; [exact Hui |]. split; [exact Huc |]. split; [exact Hc |].
    apply T0 in Hneg.
    repeat apply conj; intros H;
      first [discriminate H | reflexivity | lra | destruct H; lra].
  - exists uhiIndex, uhiClasses, (class_value k).
    split; [exact Hui |]. split; [exact Huc |]. split; [exact Hc |].
    destruct k; simpl in Hk |- *.
    + destruct Hk as [Hlo Hhi]. apply U0 in Hlo. apply T1 in Hhi.
      repeat apply conj; intros H;
        first [discriminate H | reflexivity | lra | destruct H; lra | split; lra].
    + destruct Hk as [Hlo Hhi]. apply U1 in Hlo. apply T2 in Hhi.
      repeat apply conj; intros H;
        first [discriminate H | reflexivity | lra | destruct H; lra | split; lra].
    + destruct Hk as [Hlo Hhi]. apply U2 in Hlo. apply T3 in Hhi.
      repeat apply conj; intros H;
        first [discriminate H | reflexivity | lra | destruct H; lra | split; lra].
    + destruct Hk as [Hlo Hhi]. apply U3 in Hlo. apply T4 in Hhi.
      repeat apply conj; intros H;
        first [discriminate H | reflexivity | lra | destruct H; lra | split; lra].
    + apply U4 in Hk.
      repeat apply conj; intros H;
        first [discriminate H | reflexivity | lra | destruct H; lra | split; lra].
Qed.

Lemma class_of_temperature_witness :
  0 < 44000 /\
  exists uhiIndex uhiClasses c,
    outcome (calculate_uhi_index image_arg 44000) world_ok = Ok uhiIndex /\
    outcome (classify_uhi_intensity uhiIndex (Image_constant 1)) world_ok
    = Ok uhiClasses /\
    pix (denote sample_service sample_scene uhiClasses) (0, 0)%Z = Some c /\
    (c = 0 <-> 45000 < 44000) /\
    (c = 1 <-> 44000 <= 45000 /\ 45000 < 1.005 * 44000) /\
    (c = 2 <-> 1.005 * 44000 <= 45000 /\ 45000 < 1.010 * 44000) /\
    (c = 3 <-> 1.010 * 44000 <= 45000 /\ 45000 < 1.015 * 44000) /\
    (c = 4 <-> 1.015 * 44000 <= 45000 /\ 45000 < 1.020 * 44000) /\
    (c = 5 <-> 1.020 * 44000 <= 45000).
Proof.
  split; [reflexivity |].
  apply (class_of_temperature sample_service sample_scene image_arg
           (Image_constant 1) 44000 world_ok (0, 0)%Z 45000 1); reflexivity.
Defined.

(** ** The metadata of the scaled scenes *)

(** X9. The scaled image carries the band name and every metadata
    property of the image it was computed from. *)
Theorem apply_thermal_scaling_keeps_metadata
  (s : Service) (scene : Raster) (image : Image) :
  band (denote s scene (apply_thermal_scaling image)) = band (denote s scene image) /\
  forall k,
    props (denote s scene (apply_thermal_scaling image)) k
    = props (denote s scene image) k.
Proof.
  split; [reflexivity |].
  intros k. simpl. destruct (props (denote s scene image) k); reflexivity.
Qed.

(** ** More on the visualisation *)

(** X10. With a coordinate list of fewer than two entries the
    visualisation makes no call to the mapping library: the index error is
    caught, the warning is printed, and the step returns normally. *)
Theorem visualize_interactive_short_coordinates
  (w : World) (medianThermal uhiClasses : Image)
  (analysisBoundary : FeatureCollection) (centralCoord : list Q) :
  (List.length centralCoord < 2)%nat ->
  trace (visualize_interactive medianThermal uhiClasses analysisBoundary
           centralCoord) w
  = [Printed [Lit (LF ++ "🗺️  Creating interactive visualization...")%string];
     Printed [Lit "⚠️  Could not create interactive map: ";
              Fexc (Exception_ "list index out of range")];
     Printed [Lit "  (geemap may not be installed. Install with: pip install geemap)"]] /\
  outcome (visualize_interactive medianThermal uhiClasses analysisBoundary
             centralCoord) w = Ok tt.
Proof.
  intros H.
  assert (E : nth_error centralCoord 1 = None) by (apply nth_error_None; lia).
  unfold visualize_interactive, trace, outcome, bind, call, print, ret,
    try_except_Exception, getitem, raise.
  rewrite E. split; reflexivity.
Qed.

Lemma visualize_interactive_short_coordinates_witness :
  (List.length [80.2707%Q] < 2)%nat /\
  outcome (visualize_interactive image_arg image_arg
             (FeatureCollection_id "FAO/GAUL/2015/level1") [80.2707]) world_ok
  = Ok tt.
Proof.
  split; [simpl; lia |].
  apply (visualize_interactive_short_coordinates world_ok image_arg image_arg
           (FeatureCollection_id "FAO/GAUL/2015/level1") [80.2707]).
  simpl; lia.
Defined.

(** X11. With a coordinate list [c0, c1, ...] the first thing the
    visualisation asks of the mapping library is a map centred at
    [(c1, c0)] with zoom 10. *)
Theorem visualize_interactive_centre
  (w : World) (medianThermal uhiClasses : Image)
  (analysisBoundary : FeatureCollection) (c0 c1 : Q) (more : list Q) :
  exists rest,
    trace (visualize_interactive medianThermal uhiClasses analysisBoundary
             (c0 :: c1 :: more)) w
    = Printed [Lit (LF ++ "🗺️  Creating interactive visualization...")%string]
      :: Geemap_Map (c1, c0) 10 :: rest.
Proof. apply visualize_interactive_centre_run. Qed.

(** Closes a run of the step in which the map was not saved. *)
Ltac not_saved :=
  let Hin := fresh "Hin" in
  intros Hin; exfalso; simpl in Hin;
  repeat (destruct Hin as [Hin | Hin]; [discriminate Hin |]);
  exact Hin.

(** X12. The visualisation prints that the map was saved only when every
    call to the mapping library, the save included, has succeeded; no
    warning is printed in such a run. *)
Theorem visualize_interactive_saved
  (w : World) (medianThermal uhiClasses : Image)
  (analysisBoundary : FeatureCollection) (centralCoord : list Q) :
  In (Printed [Lit "✓ Interactive map saved: "; Fstr "uhi_map.html"])
     (trace (visualize_interactive medianThermal uhiClasses analysisBoundary
               centralCoord) w) ->
  geemap_save w "uhi_map.html" = Ok tt /\
  (forall call,
     In call (trace (visualize_interactive medianThermal uhiClasses
                       analysisBoundary centralCoord) w) ->
     geemap_answer w call = Ok tt) /\
  (forall e,
     ~ In (Printed [Lit "⚠️  Could not create interactive map: "; Fexc e])
          (trace (visualize_interactive medianThermal uhiClasses
                    analysisBoundary centralCoord) w)).
Proof.
  unfold visualize_interactive, trace, outcome, bind, call, print, ret,
    try_except_Exception, getitem, raise.
  destruct (nth_error centralCoord 1) as [c1 |];
    [destruct (nth_error centralCoord 0) as [c0 |] |]; cbn -[LF].
  2, 3: not_saved.
  geemap_call w; [| not_saved ..].
  geemap_call w; [| not_saved ..].
  geemap_call w; [| not_saved ..].
  geemap_call w; [| not_saved ..].
  geemap_call w; [| not_saved ..].
  intros _. split; [first [assumption | reflexivity] |]. split.
  - intros call Hc. simpl in Hc.
    repeat (destruct Hc as [<- | Hc]; [simpl; first [reflexivity | assumption] |]).
    contradiction.
  - intros e Hw. simpl in Hw.
    repeat (destruct Hw as [Hw | Hw]; [discriminate Hw |]).
    exact Hw.
Qed.

Lemma visualize_interactive_saved_witness :
  In (Printed [Lit "✓ Interactive map saved: "; Fstr "uhi_map.html"])
     (trace (visualize_interactive image_arg image_arg
               (FeatureCollection_id "FAO/GAUL/2015/level1") [80.2707; 13.0827])
            world_ok) /\
  geemap_save world_ok "uhi_map.html" = Ok tt.
Proof.
  split; [apply (nth_error_In _ 6%nat); reflexivity |].
  apply (visualize_interactive_saved world_ok image_arg image_arg
           (FeatureCollection_id "FAO/GAUL/2015/level1") [80.2707; 13.0827]).
  apply (nth_error_In _ 6%nat); reflexivity.
Defined.

(** ** What the client refuses *)

(** X13. The aggregation step issues no request.  In every world it prints
    its first line and is left by the exception that the client raises on
    the dictionary handed to [reduceRegion] as its only positional
    parameter, an instance of [Exception]; what follows the step in the
    caller does not run. *)
Theorem compute_lst_is_refused (w : World) (landsatThermal : ImageCollection)
  (analysisBoundary : FeatureCollection) :
  trace (compute_lst landsatThermal analysisBoundary) w = [compute_lst_banner] /\
  outcome (compute_lst landsatThermal analysisBoundary) w
  = Raised (Exception_ reducer_cast_error) /\
  is_Exception (Exception_ reducer_cast_error) = true /\
  forall (B : Type) (rest : Image * Q -> Py B),
    (lst <- compute_lst landsatThermal analysisBoundary ;; rest lst) w
    = ([compute_lst_banner], Raised (Exception_ reducer_cast_error)).
Proof.
  split; [reflexivity |]. split; [reflexivity |]. split; [reflexivity |].
  intros B rest. unfold bind. rewrite compute_lst_run. reflexivity.
Qed.


Lemma visualize_interactive_layers (w : World) (medianThermal uhiClasses : Image)
  (analysisBoundary : FeatureCollection) (centralCoord : list Q)
  (layer : Image) (vis : VisParams) :
  In (Geemap_addLayer layer vis "UHI Classes")
     (trace (visualize_interactive medianThermal uhiClasses analysisBoundary
               centralCoord) w) ->
  layer = Image_clip uhiClasses analysisBoundary.
Proof.
  intros H.
  assert (F : holds w (visualize_interactive medianThermal uhiClasses
                         analysisBoundary centralCoord)
                (fun e => match e with
                          | Geemap_addLayer i _ name =>
                              name = "UHI Classes" ->
                              i = Image_clip uhiClasses analysisBoundary
                          | _ => True
                          end)
                (fun _ => True)).
  { unfold_script; script_steps; first [exact I | discriminate | reflexivity]. }
  destruct F as [F _]. rewrite Forall_forall in F.
  exact (F _ H eq_refl).
Qed.

(** X14. The layer that the visualisation shows on the map under the name
    ['UHI Classes'] is the image that the export step, handed the same
    classified raster and boundary, sends to the service: the raster
    clipped to the analysis boundary. *)
Theorem mapped_classes_are_the_exported
  (w : World) (medianThermal uhiClasses : Image)
  (analysisBoundary : FeatureCollection) (centralCoord : list Q)
  (output_folder : option string) (layer : Image) (vis : VisParams) :
  In (Geemap_addLayer layer vis "UHI Classes")
     (trace (visualize_interactive medianThermal uhiClasses analysisBoundary
               centralCoord) w) ->
  layer = Image_clip uhiClasses analysisBoundary /\
  exists req,
    In (EE_task_start req)
       (trace (export_to_drive uhiClasses analysisBoundary output_folder) w) /\
    image req = layer.
Proof.
  intros H. apply visualize_interactive_layers in H. subst layer.
  split; [reflexivity |].
  destruct (export_to_drive_run uhiClasses analysisBoundary output_folder w)
    as (req & Himage & _ & _ & _ & Hrun).
  exists req. split; [| exact Himage].
  destruct (task_start w req); destruct Hrun as [-> _]; simpl; auto.
Qed.

Lemma mapped_classes_are_the_exported_witness :
  exists layer vis,
    In (Geemap_addLayer layer vis "UHI Classes")
       (trace (visualize_interactive (Image_constant 0) (Image_constant 3)
                 (FeatureCollection_id "FAO/GAUL/2015/level1")
                 [80.2707; 13.0827]) world_ok) /\
    layer = Image_clip (Image_constant 3)
                       (FeatureCollection_id "FAO/GAUL/2015/level1") /\
    exists req,
      In (EE_task_start req)
         (trace (export_to_drive (Image_constant 3)
                   (FeatureCollection_id "FAO/GAUL/2015/level1") None) world_ok) /\
      image req = layer.
Proof.
  eexists _, _.
  assert (H : nth_error
                (trace (visualize_interactive (Image_constant 0) (Image_constant 3)
                          (FeatureCollection_id "FAO/GAUL/2015/level1")
                          [80.2707; 13.0827]) world_ok) 3
              = Some (Geemap_addLayer
                        (Image_clip (Image_constant 3)
                           (FeatureCollection_id "FAO/GAUL/2015/level1"))
                        _ "UHI Classes")) by reflexivity.
  apply nth_error_In in H.
  split; [exact H |].
  apply (mapped_classes_are_the_exported world_ok _ _ _ _ None _ _ H).
Defined.

(** X15. The image that the export step hands to the service, built from
    the urban mask, the classifier and the clip, has a value at a pixel
    exactly when the pixel lies inside the analysis boundary and the modal
    land-cover label there is 6. *)
Theorem exported_footprint
  (s : Service) (scene : Raster) (analysisBoundary : FeatureCollection)
  (startDate endDate : string) (uhiIndex : Image)
  (output_folder : option string) (w : World) (p : Pixel) :
  exists labels dynamicUrban uhiClasses req,
    outcome (get_urban_mask analysisBoundary startDate endDate) w
    = Ok dynamicUrban /\
    dynamicUrban = Image_eq (IC_mode labels) 6 /\
    outcome (classify_uhi_intensity uhiIndex dynamicUrban) w = Ok uhiClasses /\
    In (EE_task_start req)
       (trace (export_to_drive uhiClasses analysisBoundary output_folder) w) /\
    ((exists v, pix (denote s scene (image req)) p = Some v) <->
     inside s analysisBoundary p = true /\
     exists label,
       pix (composite s Mode (denote_collection s scene labels)) p = Some label /\
       label == 6).
Proof.
  destruct (built_area_footprint s scene analysisBoundary startDate endDate
              uhiIndex w p)
    as (labels & dynamicUrban & uhiClasses & Hdu & Hshape & Huc & Hiff).
  destruct (export_to_drive_run uhiClasses analysisBoundary output_folder w)
    as (req & Himage & _ & _ & _ & Hrun).
  exists labels, dynamicUrban, uhiClasses, req.
  split; [exact Hdu |]. split; [exact Hshape |]. split; [exact Huc |]. split.
  - destruct (task_start w req); destruct Hrun as [-> _]; simpl; auto.
  - rewrite Himage. cbn [denote R_clip pix]. rewrite <- Hiff.
    destruct (inside s analysisBoundary p); split.
    + intros H; split; [reflexivity | exact H].
    + intros [_ H]; exact H.
    + intros [v Hv]; discriminate Hv.
    + intros [H _]; discriminate H.
Qed.
